(** * PancakeSwap v2 pools tag module: a shallow embedding of [src/main.mts]

    The module pulls liquidity-pool pairs from a GraphQL endpoint page by
    page, rejects pairs whose token names or symbols look unsafe, and turns
    the remaining ones into contract tags.

    Modelling choices:
    - a JavaScript string is the list of its UTF-16 code units ([jsstring]);
      [length], [substring], [trim] and the regular expression all work on
      code units, as they do in the source;
    - a JavaScript number that the program handles is an integer or NaN
      ([number]); an integer of magnitude below 10^21 prints in plain
      decimal, a larger one in exponent notation;
    - a thrown value is a [JsValue]; a function that may throw returns a
      [Completion];
    - the network and the console are the only effects: the state carries
      the trace of [fetch] calls and the console output, and the endpoint is
      a function of the calls made so far and of the request;
    - the [while] loop takes fuel, since a server that keeps answering with
      full pages keeps it running. *)

From Stdlib Require Import Ascii String.
From Stdlib Require Import List ZArith NArith Bool Lia.
From Stdlib Require Decimal DecimalPos DecimalZ.
Import ListNotations.

(** ** Strings *)

Definition jsstring := list N.

(** An ASCII literal as a JavaScript string. *)
Definition str (s : String.string) : jsstring :=
  map N_of_ascii (String.list_ascii_of_string s).

Arguments str s%_string : simpl never.

(** [a === b] on strings. *)
Fixpoint streq (a b : jsstring) : bool :=
  match a, b with
  | [], [] => true
  | x :: a', y :: b' => N.eqb x y && streq a' b'
  | _, _ => false
  end.

Definition charIn (c : N) (cs : list N) : bool := existsb (N.eqb c) cs.

(** WhiteSpace and LineTerminator code points of ECMAScript, the characters
    [String.prototype.trim] strips and [Number] and [parseInt] skip. *)
Definition isWhiteSpace (c : N) : bool :=
  charIn c [9; 10; 11; 12; 13; 32; 160; 5760; 8232; 8233; 8239; 8287; 12288; 65279]%N
  || (N.leb 8192 c && N.leb c 8202).

Fixpoint trimStart (s : jsstring) : jsstring :=
  match s with
  | [] => []
  | c :: r => if isWhiteSpace c then trimStart r else s
  end.

Definition trimEnd (s : jsstring) : jsstring := rev (trimStart (rev s)).

(** [text.trim()] *)
Definition trim (s : jsstring) : jsstring := trimEnd (trimStart s).

(** [text.substring(start, end)] for integer arguments: both are clamped to
    [0 .. length] and swapped when out of order. *)
Definition substring (s : jsstring) (start end_ : Z) : jsstring :=
  let len := Z.of_nat (length s) in
  let finalStart := Z.min (Z.max start 0) len in
  let finalEnd := Z.min (Z.max end_ 0) len in
  let from := Z.min finalStart finalEnd in
  let to := Z.max finalStart finalEnd in
  firstn (Z.to_nat (to - from)) (skipn (Z.to_nat from) s).

Fixpoint isPrefix (p s : jsstring) : bool :=
  match p, s with
  | [], _ => true
  | x :: p', y :: s' => N.eqb x y && isPrefix p' s'
  | _ :: _, [] => false
  end.

(** [s.replace(pat, rep)] with a string pattern: the first occurrence only.
    The replacement is taken literally, which is what JavaScript does when it
    holds no dollar sign. *)
Fixpoint replaceFirst (pat rep s : jsstring) : jsstring :=
  if isPrefix pat s then rep ++ skipn (length pat) s
  else match s with
       | [] => []
       | c :: r => c :: replaceFirst pat rep r
       end.

(** [xs.join(sep)] *)
Fixpoint join (sep : jsstring) (xs : list jsstring) : jsstring :=
  match xs with
  | [] => []
  | [x] => x
  | x :: rest => x ++ sep ++ join sep rest
  end.

(** ** The regular expression [/<[^>]*>/] *)

Definition LT_SIGN : N := 60.
Definition GT_SIGN : N := 62.

(** [[^>]*>] at the head of [s]: the star takes every character that is not
    a closing bracket, then a closing bracket must follow. *)
Fixpoint matchRest (s : jsstring) : bool :=
  match s with
  | [] => false
  | c :: r => if N.eqb c GT_SIGN then true else matchRest r
  end.

(** The whole pattern at the head of [s]. *)
Definition matchHere (s : jsstring) : bool :=
  match s with
  | [] => false
  | c :: r => N.eqb c LT_SIGN && matchRest r
  end.

(** [/<[^>]*>/.test(s)]: the pattern is tried at every start position. *)
Fixpoint regexTest (s : jsstring) : bool :=
  matchHere s ||
  match s with
  | [] => false
  | _ :: r => regexTest r
  end.

(** The language of the pattern, as a substring of [s]: an opening bracket,
    any characters other than a closing bracket, a closing bracket. *)
Definition TagLike (s : jsstring) : Prop :=
  exists pre mid post,
    s = pre ++ LT_SIGN :: mid ++ GT_SIGN :: post /\
    Forall (fun c => c <> GT_SIGN) mid.

(** ** Validation and truncation (lines 97-108) *)

Definition containsInvalidValue (text : jsstring) : bool :=
  let containsHtml := regexTest text in
  let isEmpty := streq (trim text) (str "") in
  isEmpty || containsHtml.

(** The spec's validator [isValid] is the negation of the source's
    [containsInvalidValue]. *)
Definition isValid (text : jsstring) : bool := negb (containsInvalidValue text).

Definition truncateString (text : jsstring) (maxLength : Z) : jsstring :=
  if Z.gtb (Z.of_nat (length text)) maxLength
  then substring text 0 (maxLength - 3) ++ str "..."
  else text.

(** ** Numbers *)

(** The numbers of the program: integers and NaN. Fractions and infinities
    are left out: the numbers that occur are HTTP statuses and timestamps in
    whole seconds. *)
Inductive number : Type :=
| Int (z : Z)
| NaN.

Fixpoint uintUnits (d : Decimal.uint) : jsstring :=
  match d with
  | Decimal.Nil => []
  | Decimal.D0 d' => 48%N :: uintUnits d'
  | Decimal.D1 d' => 49%N :: uintUnits d'
  | Decimal.D2 d' => 50%N :: uintUnits d'
  | Decimal.D3 d' => 51%N :: uintUnits d'
  | Decimal.D4 d' => 52%N :: uintUnits d'
  | Decimal.D5 d' => 53%N :: uintUnits d'
  | Decimal.D6 d' => 54%N :: uintUnits d'
  | Decimal.D7 d' => 55%N :: uintUnits d'
  | Decimal.D8 d' => 56%N :: uintUnits d'
  | Decimal.D9 d' => 57%N :: uintUnits d'
  end.

Fixpoint dropZeros (s : jsstring) : jsstring :=
  match s with
  | [] => []
  | c :: r => if N.eqb c 48 then dropZeros r else s
  end.

(** Exponent notation for a string of decimal digits: the first digit, the
    other digits up to the last one that is not zero after a point, and the
    exponent, one less than the number of digits. *)
Definition exponentForm (digits : jsstring) : jsstring :=
  match digits with
  | [] => []
  | d :: rest =>
      match rev (dropZeros (rev rest)) with
      | [] => d :: str "e+" ++ uintUnits (Nat.to_uint (length rest))
      | fraction => d :: 46%N :: fraction ++ str "e+"
                    ++ uintUnits (Nat.to_uint (length rest))
      end
  end.

(** [n.toString()], also what a template literal prints for a number: an
    integer of magnitude below 10^21 in plain decimal, a larger one in
    exponent notation ("1e+21"). The digits printed are those of the integer
    itself. JavaScript prints the shortest digits that read back as the same
    number: they are the integer's own digits for every integer below 2^53
    in magnitude and for every integer with at most 15 significant digits. *)
Definition numberToString (n : number) : jsstring :=
  match n with
  | NaN => str "NaN"
  | Int z =>
      if (Z.abs z <? 10 ^ 21)%Z then
        match Z.to_int z with
        | Decimal.Pos d => uintUnits d
        | Decimal.Neg d => 45%N :: uintUnits d
        end
      else
        match Z.to_int z with
        | Decimal.Pos d => exponentForm (uintUnits d)
        | Decimal.Neg d => 45%N :: exponentForm (uintUnits d)
        end
  end.

Arguments numberToString n : simpl never.

Definition isDigit (c : N) : bool := N.leb 48 c && N.leb c 57.

Fixpoint skipDigits (s : jsstring) : jsstring :=
  match s with
  | [] => []
  | c :: r => if isDigit c then skipDigits r else s
  end.

Definition startsWithDigit (s : jsstring) : bool :=
  match s with
  | [] => false
  | c :: _ => isDigit c
  end.

Definition isEmptyString (s : jsstring) : bool :=
  match s with
  | [] => true
  | _ :: _ => false
  end.

(** The value of the longest prefix of decimal digits, most significant
    digit first. *)
Fixpoint parseDigits (s : jsstring) (acc : Z) : Z :=
  match s with
  | [] => acc
  | c :: r =>
      if isDigit c then parseDigits r (10 * acc + Z.of_N (c - 48)) else acc
  end.

(** [parseInt(s, 10)]: leading white space is skipped, one sign is read, and
    the digits that follow are the value; no digit gives NaN. *)
Definition parseInt10 (s : jsstring) : number :=
  let s1 := trimStart s in
  let '(sign, s2) :=
    match s1 with
    | c :: r =>
        if N.eqb c 45 then ((-1)%Z, r)
        else if N.eqb c 43 then (1%Z, r)
        else (1%Z, s1)
    | [] => (1%Z, s1)
    end in
  if startsWithDigit s2 then Int (sign * parseDigits s2 0) else NaN.

(** An optional ExponentPart, then the end of the literal. *)
Definition exponentThenEnd (s : jsstring) : bool :=
  match s with
  | [] => true
  | c :: r =>
      charIn c [101; 69]%N &&
      let digits :=
        match r with
        | sgn :: r' => if charIn sgn [43; 45]%N then r' else r
        | [] => r
        end in
      startsWithDigit digits && isEmptyString (skipDigits digits)
  end.

(** StrUnsignedDecimalLiteral *)
Definition isUnsignedDecimal (s : jsstring) : bool :=
  streq s (str "Infinity") ||
  if startsWithDigit s then
    match skipDigits s with
    | [] => true
    | c :: r => if N.eqb c 46 then exponentThenEnd (skipDigits r)
                else exponentThenEnd (c :: r)
    end
  else
    match s with
    | c :: r => N.eqb c 46 && startsWithDigit r && exponentThenEnd (skipDigits r)
    | [] => false
    end.

Definition allIn (digits : list N) (s : jsstring) : bool :=
  negb (isEmptyString s) && forallb (fun c => charIn c digits) s.

(** NonDecimalIntegerLiteral: binary, octal and hexadecimal with their
    prefixes. *)
Definition isNonDecimalInteger (s : jsstring) : bool :=
  match s with
  | z :: p :: r =>
      N.eqb z 48 &&
      ((charIn p [98; 66]%N && allIn [48; 49]%N r)
       || (charIn p [111; 79]%N && allIn [48; 49; 50; 51; 52; 53; 54; 55]%N r)
       || (charIn p [120; 88]%N &&
           allIn [48; 49; 50; 51; 52; 53; 54; 55; 56; 57;
                  97; 98; 99; 100; 101; 102; 65; 66; 67; 68; 69; 70]%N r))
  | _ => false
  end.

(** [isNaN(Number(s))] for a string [s]: the string is trimmed; the empty
    string converts to 0, a StrNumericLiteral to its value, anything else to
    NaN. *)
Definition isNaN_Number (s : jsstring) : bool :=
  let t := trim s in
  negb (isEmptyString t
        || match t with
           | c :: r => if charIn c [43; 45]%N then isUnsignedDecimal r
                       else isUnsignedDecimal t
           | [] => false
           end
        || isNonDecimalInteger t).

(** ** Thrown values and completions *)

(** What the program can observe of a thrown value: whether it is an object
    with a string [message], and how it prints in a template literal. *)
Inductive JsValue : Type :=
| ErrorObject (name message : jsstring)
    (* an Error instance, printed by Error.prototype.toString *)
| OtherObject (message : option jsstring) (repr : jsstring)
    (* any other non-null object: its message when that is a string, and
       what its toString gives *)
| Primitive (repr : jsstring).
    (* undefined, null, a boolean, a number or a string *)

Inductive Completion (A : Type) : Type :=
| Return (a : A)
| Throw (e : JsValue).

Arguments Return {A} a.
Arguments Throw {A} e.

(** [new Error(message)] *)
Definition newError (message : jsstring) : JsValue :=
  ErrorObject (str "Error") message.

(** Lines 88-95. *)
Definition isError (e : JsValue) : bool :=
  match e with
  | ErrorObject _ _ => true
  | OtherObject (Some _) _ => true
  | OtherObject None _ => false
  | Primitive _ => false
  end.

(** [e.message] where [isError e] holds. *)
Definition messageOf (e : JsValue) : jsstring :=
  match e with
  | ErrorObject _ m => m
  | OtherObject (Some m) _ => m
  | _ => str "undefined"
  end.

(** The string a template literal substitutes for [e]. *)
Definition toString (e : JsValue) : jsstring :=
  match e with
  | ErrorObject name msg =>
      if isEmptyString name then msg
      else if isEmptyString msg then name
      else name ++ str ": " ++ msg
  | OtherObject _ repr => repr
  | Primitive repr => repr
  end.

(** ** [encodeURIComponent] *)

Definition isAlphaNum (c : N) : bool :=
  isDigit c || (N.leb 65 c && N.leb c 90) || (N.leb 97 c && N.leb c 122).

(** Characters kept as they are: letters, digits and [- _ . ! ~ * ' ( )]. *)
Definition isUriUnreserved (c : N) : bool :=
  isAlphaNum c || charIn c [45; 95; 46; 33; 126; 42; 39; 40; 41]%N.

Definition hexDigit (n : N) : N :=
  if N.ltb n 10 then (48 + n)%N else (55 + n)%N.

Definition percentByte (b : N) : jsstring :=
  [37%N; hexDigit (b / 16); hexDigit (b mod 16)].

(** The UTF-8 bytes of a code point. *)
Definition utf8 (cp : N) : list N :=
  if N.ltb cp 128 then [cp]
  else if N.ltb cp 2048 then [192 + cp / 64; 128 + cp mod 64]%N
  else if N.ltb cp 65536 then
    [224 + cp / 4096; 128 + (cp / 64) mod 64; 128 + cp mod 64]%N
  else
    [240 + cp / 262144; 128 + (cp / 4096) mod 64;
     128 + (cp / 64) mod 64; 128 + cp mod 64]%N.

Definition percentEncode (cp : N) : jsstring := flat_map percentByte (utf8 cp).

Definition isHighSurrogate (c : N) : bool := N.leb 55296 c && N.leb c 56319.
Definition isLowSurrogate (c : N) : bool := N.leb 56320 c && N.leb c 57343.

Definition uriError : JsValue :=
  ErrorObject (str "URIError") (str "URI malformed").

Fixpoint encodeURIComponent (s : jsstring) : Completion jsstring :=
  match s with
  | [] => Return []
  | c :: r =>
      if isUriUnreserved c then
        match encodeURIComponent r with
        | Return t => Return (c :: t)
        | Throw e => Throw e
        end
      else if isLowSurrogate c then Throw uriError
      else if isHighSurrogate c then
        match r with
        | d :: r' =>
            if isLowSurrogate d then
              match encodeURIComponent r' with
              | Return t =>
                  Return (percentEncode
                            ((c - 55296) * 1024 + (d - 56320) + 65536)%N ++ t)
              | Throw e => Throw e
              end
            else Throw uriError
        | [] => Throw uriError
        end
      else
        match encodeURIComponent r with
        | Return t => Return (percentEncode c ++ t)
        | Throw e => Throw e
        end
  end.

(** ** The chain registry and URL resolution (lines 4-35, 142-151) *)

Record SubgraphEntry : Type := { decentralized : jsstring }.

(** The object literal, own properties in source order. Every key is an
    array-index-like name and the literal lists them in ascending numeric
    order, so this is also the order in which [Object.keys] enumerates
    them. *)
Definition SUBGRAPH_URLS : list (jsstring * SubgraphEntry) :=
  [ (str "1",
     {| decentralized := str "https://gateway.thegraph.com/api/[api-key]/subgraphs/id/9opY17WnEPD4REcC43yHycQthSeUMQE26wyoeMjZTLEx" |});
    (str "324",
     {| decentralized := str "https://gateway.thegraph.com/api/[api-key]/subgraphs/id/6dU6WwEz22YacyzbTbSa3CECCmaD8G7oQ8aw6MYd5VKU" |});
    (str "1101",
     {| decentralized := str "https://gateway.thegraph.com/api/[api-key]/subgraphs/id/37WmH5kBu6QQytRpMwLJMGPRbXvHgpuZsWqswW4Finc2" |});
    (str "8453",
     {| decentralized := str "https://gateway.thegraph.com/api/[api-key]/subgraphs/id/2NjL7L4CmQaGJSacM43ofmH6ARf6gJoBeBaJtz9eWAQ9" |});
    (str "42161",
     {| decentralized := str "https://gateway.thegraph.com/api/[api-key]/subgraphs/id/EsL7geTRcA3LaLLM9EcMFzYbUgnvf8RixoEEGErrodB3" |});
    (str "59144",
     {| decentralized := str "https://gateway.thegraph.com/api/[api-key]/subgraphs/id/Eti2Z5zVEdARnuUzjCbv4qcimTLysAizsqH3s6cBfPjB" |}) ].

(** The property names an object literal inherits from [Object.prototype]. *)
Definition objectPrototypeNames : list jsstring :=
  [ str "constructor"; str "hasOwnProperty"; str "isPrototypeOf";
    str "propertyIsEnumerable"; str "toLocaleString"; str "toString";
    str "valueOf"; str "__proto__"; str "__defineGetter__";
    str "__defineSetter__"; str "__lookupGetter__"; str "__lookupSetter__" ].

(** The result of [obj[key]] on the registry object. *)
Inductive Property : Type :=
| Own (entry : SubgraphEntry)
| Inherited      (* a member of Object.prototype: a function or an object *)
| Undefined.

Fixpoint ownProperty (obj : list (jsstring * SubgraphEntry)) (key : jsstring)
  : option SubgraphEntry :=
  match obj with
  | [] => None
  | (k, v) :: rest => if streq k key then Some v else ownProperty rest key
  end.

Definition getProperty (obj : list (jsstring * SubgraphEntry)) (key : jsstring)
  : Property :=
  match ownProperty obj key with
  | Some v => Own v
  | None => if existsb (streq key) objectPrototypeNames then Inherited
            else Undefined
  end.

(** [!urls]: only [undefined] is falsy here. *)
Definition isFalsy (p : Property) : bool :=
  match p with
  | Undefined => true
  | _ => false
  end.

Definition Object_keys (obj : list (jsstring * SubgraphEntry)) : list jsstring :=
  map fst obj.

Definition unsupportedChainError (chainId : jsstring) : JsValue :=
  let supportedChainIds := join (str ", ") (Object_keys SUBGRAPH_URLS) in
  newError (str "Unsupported or invalid Chain ID provided: " ++ chainId
            ++ str ". Only the following values are accepted: "
            ++ supportedChainIds).

Definition prepareUrl (chainId apiKey : jsstring) : Completion jsstring :=
  let urls := getProperty SUBGRAPH_URLS chainId in
  if isFalsy urls || isNaN_Number chainId then
    Throw (unsupportedChainError chainId)
  else
    match urls with
    | Own entry =>
        match encodeURIComponent apiKey with
        | Return key => Return (replaceFirst (str "[api-key]") key (decentralized entry))
        | Throw e => Throw e
        end
    | _ =>
        Throw (ErrorObject (str "TypeError")
                 (str "Cannot read properties of undefined (reading 'replace')"))
    end.

(** ** Data model (lines 37-57) *)

Record PoolToken : Type := {
  token_id : jsstring;
  name : jsstring;
  symbol : jsstring
}.

Record Pair : Type := {
  id : jsstring;
  timestamp : number;
  token0 : PoolToken;
  token1 : PoolToken
}.

(** [pairs] is optional here because line 135 guards against its absence. *)
Record GraphQLData : Type := { pairs : option (list Pair) }.

Record GraphQLErrorItem : Type := { message : jsstring }.

Record GraphQLResponse : Type := {
  data : option GraphQLData;
  errors : option (list GraphQLErrorItem)
}.

(** The fields of [ContractTag], in the order of the object literal. *)
Record ContractTag : Type := {
  Contract_Address : jsstring;
  Public_Name_Tag : jsstring;
  Project_Name : jsstring;
  UI_Website_Link : jsstring;
  Public_Note : jsstring
}.

(** ** The network and the console *)

(** What [fetchData] sends: the endpoint and the [lastTimestamp] variable.
    The method, the headers and the query text are constants. *)
Record Request : Type := {
  request_url : jsstring;
  request_lastTimestamp : number
}.

(** What the program reads off a response: [ok], [status], and the body that
    [response.json()] parses (or the error it rejects with). *)
Record Response : Type := {
  ok : bool;
  status : Z;
  json : Completion GraphQLResponse
}.

(** The promise [fetch] returns either rejects or resolves to a response. *)
Definition FetchResult : Type := Completion Response.

Definition FetchCall : Type := (Request * FetchResult)%type.

(** An endpoint answers a request knowing the calls made so far. *)
Definition Network : Type := list FetchCall -> Request -> FetchResult.

Inductive LogEntry : Type :=
| console_error (line : jsstring)
| console_log (label : jsstring) (items : list jsstring).

Record State : Type := {
  calls : list FetchCall;      (* fetch calls so far, oldest first *)
  console : list LogEntry      (* console output so far, oldest first *)
}.

Definition initialState : State := {| calls := []; console := [] |}.

(** Computations that read and extend the state and may throw. *)
Definition M (A : Type) : Type := State -> Completion A * State.

Definition ret {A} (a : A) : M A := fun st => (Return a, st).

Definition throw {A} (e : JsValue) : M A := fun st => (Throw e, st).

Definition bind {A B} (m : M A) (k : A -> M B) : M B :=
  fun st =>
    match m st with
    | (Return a, st') => k a st'
    | (Throw e, st') => (Throw e, st')
    end.

Notation "x <- m ;; k" := (bind m (fun x => k))
  (at level 61, m at next level, right associativity).
Notation "m ;;; k" := (bind m (fun _ => k))
  (at level 61, right associativity).

(** [try { body } catch (error) { handler }] *)
Definition tryCatch {A} (body : M A) (handler : JsValue -> M A) : M A :=
  fun st =>
    match body st with
    | (Return a, st') => (Return a, st')
    | (Throw e, st') => handler e st'
    end.

Definition liftCompletion {A} (c : Completion A) : M A :=
  fun st => (c, st).

Definition log (entry : LogEntry) : M unit :=
  fun st => (Return tt, {| calls := calls st; console := console st ++ [entry] |}).

(** [xs.forEach(f)] for an effectful callback. *)
Fixpoint forEach {A} (xs : list A) (f : A -> M unit) : M unit :=
  match xs with
  | [] => ret tt
  | x :: rest => f x ;;; forEach rest f
  end.

(** ** The transformer (lines 153-198) *)

(** The callback of [pairs.forEach] on the two local arrays. *)
Definition classifyPair (acc : list Pair * list jsstring) (pair : Pair)
  : list Pair * list jsstring :=
  let '(validPairs, rejectedNames) := acc in
  let token0Invalid :=
    containsInvalidValue (name (token0 pair))
    || containsInvalidValue (symbol (token0 pair)) in
  let token1Invalid :=
    containsInvalidValue (name (token1 pair))
    || containsInvalidValue (symbol (token1 pair)) in
  if token0Invalid || token1Invalid then
    let rejectedNames :=
      if token0Invalid then
        rejectedNames ++
        [str "Contract: " ++ id pair
         ++ str " rejected due to invalid token symbol/name - Token0: "
         ++ name (token0 pair) ++ str ", Symbol: " ++ symbol (token0 pair)]
      else rejectedNames in
    let rejectedNames :=
      if token1Invalid then
        rejectedNames ++
        [str "Contract: " ++ id pair
         ++ str " rejected due to invalid token symbol/name - Token1: "
         ++ name (token1 pair) ++ str ", Symbol: " ++ symbol (token1 pair)]
      else rejectedNames in
    (validPairs, rejectedNames)
  else (validPairs ++ [pair], rejectedNames).

(** The callback of [validPairs.map]. *)
Definition tagOfPair (chainId : jsstring) (pair : Pair) : ContractTag :=
  let maxSymbolsLength := 45%Z in
  let symbolsText := symbol (token0 pair) ++ str "/" ++ symbol (token1 pair) in
  let truncatedSymbolsText := truncateString symbolsText maxSymbolsLength in
  {| Contract_Address := str "eip155:" ++ chainId ++ str ":" ++ id pair;
     Public_Name_Tag := truncatedSymbolsText ++ str " Pool";
     Project_Name := str "PancakeSwap v2";
     UI_Website_Link := str "https://pancakeswap.finance/";
     Public_Note :=
       str "The liquidity pool contract on PancakeSwap v2 for the "
       ++ name (token0 pair) ++ str " (" ++ symbol (token0 pair) ++ str ") / "
       ++ name (token1 pair) ++ str " (" ++ symbol (token1 pair)
       ++ str ") pair." |}.

Definition transformPairsToTags (chainId : jsstring) (pairs : list Pair)
  : M (list ContractTag) :=
  let '(validPairs, rejectedNames) := fold_left classifyPair pairs ([], []) in
  (if Nat.ltb 0 (length rejectedNames)
   then log (console_log (str "Rejected contracts:") rejectedNames)
   else ret tt) ;;;
  ret (map (tagOfPair chainId) validPairs).

(** ** The fetcher and the pagination loop (lines 110-140, 200-231) *)

Section Service.

Variable network : Network.

(** [await fetch(subgraphUrl, ...)]: the call is recorded and the endpoint's
    answer is the completion of the [await]. *)
Definition fetch (req : Request) : M Response :=
  fun st =>
    let result := network (calls st) req in
    (result, {| calls := calls st ++ [(req, result)]; console := console st |}).

Definition fetchData (subgraphUrl : jsstring) (lastTimestamp : number)
  : M (list Pair) :=
  response <- fetch {| request_url := subgraphUrl;
                       request_lastTimestamp := lastTimestamp |} ;;
  if negb (ok response) then
    throw (newError (str "HTTP error: " ++ numberToString (Int (status response))))
  else
    result <- liftCompletion (json response) ;;
    match errors result with
    | Some errs =>
        forEach errs (fun error =>
          log (console_error (str "GraphQL error: " ++ message error))) ;;;
        throw (newError (str "GraphQL errors occurred: see logs for details."))
    | None =>
        match data result with
        | None => throw (newError (str "No pairs data found."))
        | Some d =>
            match pairs d with
            | None => throw (newError (str "No pairs data found."))
            | Some ps => ret ps
            end
        end
    end.

(** The loop variables after one pass through the [try] block. *)
Record LoopVars : Type := {
  vars_isMore : bool;
  vars_lastTimestamp : number;
  vars_allTags : list ContractTag
}.

(** The body of the [try] block. *)
Definition tryBlock (chainId url : jsstring) (lastTimestamp : number)
    (allTags : list ContractTag) : M LoopVars :=
  pairs <- fetchData url lastTimestamp ;;
  tags <- transformPairsToTags chainId pairs ;;
  let allTags := allTags ++ tags in
  let isMore := Nat.eqb (length pairs) 1000 in
  if isMore then
    match nth_error pairs (length pairs - 1) with
    | Some lastPair =>
        ret {| vars_isMore := true;
               vars_lastTimestamp :=
                 parseInt10 (numberToString (timestamp lastPair));
               vars_allTags := allTags |}
    | None =>
        throw (ErrorObject (str "TypeError")
                 (str "Cannot read properties of undefined (reading 'timestamp')"))
    end
  else ret {| vars_isMore := false;
              vars_lastTimestamp := lastTimestamp;
              vars_allTags := allTags |}.

(** The [catch] block. *)
Definition catchBlock {A} (error : JsValue) : M A :=
  if isError error then
    log (console_error (str "An error occurred: " ++ messageOf error)) ;;;
    throw (newError (str "Failed fetching data: " ++ toString error))
  else
    log (console_error (str "An unknown error occurred.")) ;;;
    throw (newError (str "An unknown error occurred during fetch operation.")).

(** [while (isMore) { try ... catch ... }], entered with [isMore] true.
    [None] means the loop is still running when the fuel is spent; the state
    reached is returned in every case. *)
Fixpoint whileLoop (fuel : nat) (chainId url : jsstring)
    (lastTimestamp : number) (allTags : list ContractTag) (st : State)
  : option (Completion (list ContractTag)) * State :=
  match fuel with
  | O => (None, st)
  | S fuel' =>
      match tryCatch (tryBlock chainId url lastTimestamp allTags) catchBlock st with
      | (Return vars, st') =>
          if vars_isMore vars
          then whileLoop fuel' chainId url (vars_lastTimestamp vars)
                 (vars_allTags vars) st'
          else (Some (Return (vars_allTags vars)), st')
      | (Throw e, st') => (Some (Throw e), st')
      end
  end.

Definition returnTags (fuel : nat) (chainId apiKey : jsstring) (st : State)
  : option (Completion (list ContractTag)) * State :=
  let lastTimestamp := Int 0 in
  let allTags := [] in
  match prepareUrl chainId apiKey with
  | Throw e => (Some (Throw e), st)
  | Return url => whileLoop fuel chainId url lastTimestamp allTags st
  end.

End Service.

(** ** Test doubles for the endpoint *)

(** A successful answer that carries one page of pairs. *)
Definition pageResponse (ps : list Pair) : FetchResult :=
  Return {| ok := true; status := 200;
            json := Return {| data := Some {| pairs := Some ps |};
                              errors := None |} |}.

(** The page [fetchData] hands back for an answer, when it hands back one. *)
Definition pageOf (result : FetchResult) : option (list Pair) :=
  match result with
  | Return response =>
      if ok response then
        match json response with
        | Return body =>
            match errors body with
            | Some _ => None
            | None =>
                match data body with
                | Some d => pairs d
                | None => None
                end
            end
        | Throw _ => None
        end
      else None
  | Throw _ => None
  end.

(** A mocked [fetch] that answers its n-th call with the n-th entry of a
    script, and rejects once the script is used up. *)
Definition mockFetch (script : list FetchResult) : Network :=
  fun history _ =>
    nth (length history) script
        (Throw (newError (str "mock: no more responses"))).

(** The tags [transformPairsToTags] returns, as a pure function. *)
Definition allFieldsValid (pair : Pair) : bool :=
  isValid (name (token0 pair)) && isValid (symbol (token0 pair))
  && isValid (name (token1 pair)) && isValid (symbol (token1 pair)).

Definition tagsOf (chainId : jsstring) (ps : list Pair) : list ContractTag :=
  map (tagOfPair chainId) (filter allFieldsValid ps).

(** The error the [catch] block throws for a caught value. *)
Definition rethrown (error : JsValue) : JsValue :=
  if isError error
  then newError (str "Failed fetching data: " ++ toString error)
  else newError (str "An unknown error occurred during fetch operation.").

(** Sample records for the scenarios below. *)
Definition usdc : PoolToken :=
  {| token_id := str "0xa0b8"; name := str "USD Coin"; symbol := str "USDC" |}.

Definition weth : PoolToken :=
  {| token_id := str "0xc02a"; name := str "Wrapped Ether"; symbol := str "WETH" |}.

Definition markup : PoolToken :=
  {| token_id := str "0xdead"; name := str "<script>"; symbol := str "XSS" |}.

Definition goodPair : Pair :=
  {| id := str "0xabc"; timestamp := Int 1600000000;
     token0 := usdc; token1 := weth |}.

Definition badPair : Pair :=
  {| id := str "0xdef"; timestamp := Int 1700000000;
     token0 := usdc; token1 := markup |}.

Definition fullPage : list Pair := repeat goodPair 1000.

Definition lastPage : list Pair := repeat goodPair 437.

(** A full page whose last raw pair is one the validator rejects. *)
Definition pageEndingInRejected : list Pair := repeat goodPair 999 ++ [badPair].

(** The endpoint of chain "1" with the API key "key". *)
Definition sampleUrl : jsstring :=
  str "https://gateway.thegraph.com/api/key/subgraphs/id/9opY17WnEPD4REcC43yHycQthSeUMQE26wyoeMjZTLEx".

(** A response with a status outside the 2xx range. *)
Definition serverError : Response :=
  {| ok := false; status := 500;
     json := Throw (ErrorObject (str "SyntaxError") (str "Unexpected token")) |}.

(** Line 218: the cursor the loop takes from the last pair of a full
    page. *)
Definition nextCursor (lastPair : Pair) : number :=
  parseInt10 (numberToString (timestamp lastPair)).



(** The cursor discipline on a trace of fetch calls: the first request
    carries cursor [ts], and every request after it carries the cursor read
    off the last raw pair of the page the previous call returned, a page of
    exactly 1000 pairs. *)
Fixpoint chained (ts : number) (cs : list FetchCall) : Prop :=
  match cs with
  | [] => True
  | (req, res) :: rest =>
      request_lastTimestamp req = ts /\
      match rest with
      | [] => True
      | _ :: _ =>
          exists ps p,
            pageOf res = Some ps /\ length ps = 1000
            /\ nth_error ps (length ps - 1) = Some p
            /\ chained (nextCursor p) rest
      end
  end.

(** Lines 158-163: a token is invalid when its name or its symbol is. *)
Definition tokenInvalid (t : PoolToken) : bool :=
  containsInvalidValue (name t) || containsInvalidValue (symbol t).

(** The number of invalid tokens of a page, token0 and token1 counted
    apart. *)
Definition invalidTokens (ps : list Pair) : nat :=
  length (filter (fun p => tokenInvalid (token0 p)) ps)
  + length (filter (fun p => tokenInvalid (token1 p)) ps).

(** The raw pairs carried by the answers of a trace, in call order. *)
Definition fetchedPairs (cs : list FetchCall) : list Pair :=
  flat_map (fun c => match pageOf (snd c) with
                     | Some ps => ps
                     | None => []
                     end) cs.

(** An endpoint that answers every request with the same full page. *)
Definition alwaysFull : Network := fun _ _ => pageResponse fullPage.

(** The characters an encoded URI component is made of: unreserved
    characters and the percent sign of an escape. *)
Definition isUrlChar (c : N) : bool :=
  isUriUnreserved c || N.eqb c 37.

(** * Properties *)

(** ** The validator *)

Lemma streq_eq (a b : jsstring) : streq a b = true <-> a = b.
Proof.
  revert b; induction a as [|x a IH]; intros [|y b]; simpl;
    try (split; [discriminate | discriminate]); try tauto.
  rewrite andb_true_iff, N.eqb_eq, IH.
  split; [intros [-> ->]; reflexivity | intros E; inversion E; auto].
Qed.

Lemma matchRest_spec (s : jsstring) :
  matchRest s = true <->
  exists mid post, s = mid ++ GT_SIGN :: post /\ Forall (fun c => c <> GT_SIGN) mid.
Proof.
  induction s as [|c r IH]; simpl.
  - split; [discriminate|].
    intros (mid & post & E & _). destruct mid; discriminate.
  - destruct (N.eqb_spec c GT_SIGN) as [->|Hne].
    + split; [|reflexivity]. intros _. exists [], r. split; [reflexivity|constructor].
    + rewrite IH. split.
      * intros (mid & post & -> & Hmid). exists (c :: mid), post.
        split; [reflexivity | constructor; assumption].
      * intros (mid & post & E & Hmid). destruct mid as [|m mid]; simpl in E.
        -- inversion E; subst. contradiction.
        -- inversion E; subst. inversion Hmid; subst. exists mid, post. auto.
Qed.

Lemma regexTest_spec (s : jsstring) : regexTest s = true <-> TagLike s.
Proof.
  unfold TagLike. induction s as [|c r IH].
  - simpl. split; [discriminate|].
    intros (pre & mid & post & E & _). destruct pre; discriminate.
  - cbn [regexTest matchHere]. rewrite orb_true_iff, andb_true_iff, N.eqb_eq.
    rewrite matchRest_spec, IH. split.
    + intros [[-> (mid & post & -> & Hmid)] | (pre & mid & post & -> & Hmid)].
      * exists [], mid, post. auto.
      * exists (c :: pre), mid, post. auto.
    + intros (pre & mid & post & E & Hmid). destruct pre as [|p pre]; simpl in E.
      * inversion E; subst. left. split; [reflexivity|]. exists mid, post. auto.
      * inversion E; subst. right. exists pre, mid, post. auto.
Qed.

Lemma containsInvalidValue_spec (text : jsstring) :
  containsInvalidValue text = true <-> trim text = [] \/ TagLike text.
Proof.
  unfold containsInvalidValue. cbv zeta.
  rewrite orb_true_iff, streq_eq, regexTest_spec. reflexivity.
Qed.

(** C1 (as amended). A text is invalid exactly when its trimmed value is
    empty or it has a substring made of an opening angle bracket, characters
    other than a closing angle bracket, and a closing angle bracket. So
    "USD Coin" is valid, the empty string, two blanks and "<script>" are
    invalid, and "A<B", which has no closing bracket, is valid. *)
Theorem C1_isValid_characterised :
  (forall text : jsstring,
      isValid text = false <-> trim text = [] \/ TagLike text)
  /\ isValid (str "USD Coin") = true
  /\ isValid (str "") = false
  /\ isValid (str "  ") = false
  /\ isValid (str "<script>") = false
  /\ isValid (str "A<B") = true.
Proof.
  split; [|repeat split; reflexivity].
  intros text. unfold isValid. rewrite negb_false_iff.
  apply containsInvalidValue_spec.
Qed.

(** C1 as stated fails: "A<B" is classified as valid, not invalid. *)
Lemma C1_counterexample_A_lt_B : isValid (str "A<B") <> false.
Proof. vm_compute. discriminate. Qed.

(** ** Truncation *)

Lemma substring_prefix (s : jsstring) (n : Z) :
  (0 <= n <= Z.of_nat (length s))%Z ->
  substring s 0 n = firstn (Z.to_nat n) s.
Proof.
  intros Hn. unfold substring. cbv zeta.
  assert (E0 : Z.min (Z.max 0 0) (Z.of_nat (length s)) = 0%Z) by lia.
  assert (En : Z.min (Z.max n 0) (Z.of_nat (length s)) = n) by lia.
  rewrite E0, En.
  assert (Efrom : Z.min 0 n = 0%Z) by lia.
  assert (Eto : (Z.max 0 n - 0)%Z = n) by lia.
  rewrite Efrom, Eto. reflexivity.
Qed.

(** C3. With the 45-character budget, a string of at most 45 characters is
    returned unchanged, and a longer one becomes its first 42 characters
    followed by three dots, 45 characters in all. *)
Theorem C3_truncateString_45 (text : jsstring) :
  (length text <= 45 -> truncateString text 45 = text)
  /\ (45 < length text ->
      truncateString text 45 = firstn 42 text ++ str "..."
      /\ length (truncateString text 45) = 45).
Proof.
  unfold truncateString. split; intros H.
  - destruct (Z.gtb_spec (Z.of_nat (length text)) 45); [lia | reflexivity].
  - destruct (Z.gtb_spec (Z.of_nat (length text)) 45); [|lia].
    rewrite substring_prefix by lia.
    change (Z.to_nat (45 - 3)) with 42.
    split; [reflexivity|].
    rewrite length_app, length_firstn.
    change (length (str "...")) with 3. lia.
Qed.

Lemma C3_witness :
  length (str "CAKE/WBNB") <= 45
  /\ truncateString (str "CAKE/WBNB") 45 = str "CAKE/WBNB"
  /\ 45 < length (str "AAAAAAAAAAAAAAAAAAAAAAAAA/BBBBBBBBBBBBBBBBBBBBBBBBB")
  /\ truncateString (str "AAAAAAAAAAAAAAAAAAAAAAAAA/BBBBBBBBBBBBBBBBBBBBBBBBB") 45
     = str "AAAAAAAAAAAAAAAAAAAAAAAAA/BBBBBBBBBBBBBBBB..."
  /\ length (truncateString
               (str "AAAAAAAAAAAAAAAAAAAAAAAAA/BBBBBBBBBBBBBBBBBBBBBBBBB") 45) = 45.
Proof.
  split; [simpl; lia|].
  split; [apply (C3_truncateString_45 (str "CAKE/WBNB")); simpl; lia|].
  split; [simpl; lia|].
  apply (C3_truncateString_45
           (str "AAAAAAAAAAAAAAAAAAAAAAAAA/BBBBBBBBBBBBBBBBBBBBBBBBB")).
  simpl; lia.
Defined.

(** ** The transformer *)

Lemma allFieldsValid_true (p : Pair) :
  allFieldsValid p = true <->
  isValid (name (token0 p)) = true /\ isValid (symbol (token0 p)) = true /\
  isValid (name (token1 p)) = true /\ isValid (symbol (token1 p)) = true.
Proof.
  unfold allFieldsValid. rewrite !andb_true_iff. tauto.
Qed.

Lemma allFieldsValid_false (p : Pair) :
  allFieldsValid p = false <->
  isValid (name (token0 p)) = false \/ isValid (symbol (token0 p)) = false \/
  isValid (name (token1 p)) = false \/ isValid (symbol (token1 p)) = false.
Proof.
  unfold allFieldsValid. rewrite !andb_false_iff. tauto.
Qed.

(** One step of the [forEach]: a valid pair is pushed, any other pair leaves
    [validPairs] as it is. *)
Lemma classifyPair_valid (v : list Pair) (r : list jsstring) (p : Pair) :
  fst (classifyPair (v, r) p) = if allFieldsValid p then v ++ [p] else v.
Proof.
  unfold classifyPair, allFieldsValid, isValid.
  destruct (containsInvalidValue (name (token0 p)));
    destruct (containsInvalidValue (symbol (token0 p)));
    destruct (containsInvalidValue (name (token1 p)));
    destruct (containsInvalidValue (symbol (token1 p))); reflexivity.
Qed.

Lemma forEach_classify (ps : list Pair) :
  forall acc, fst (fold_left classifyPair ps acc) = fst acc ++ filter allFieldsValid ps.
Proof.
  induction ps as [|p ps IH]; intros [v r]; cbn [fold_left filter fst].
  - now rewrite app_nil_r.
  - rewrite IH, classifyPair_valid.
    destruct (allFieldsValid p); [|reflexivity].
    now rewrite <- app_assoc.
Qed.

(** The transformer never throws, leaves the trace of fetch calls alone, and
    returns the tags of the valid pairs in input order. *)
Lemma transformPairsToTags_tagsOf (chainId : jsstring) (ps : list Pair) (st : State) :
  exists st',
    transformPairsToTags chainId ps st = (Return (tagsOf chainId ps), st')
    /\ calls st' = calls st.
Proof.
  unfold transformPairsToTags, tagsOf.
  pose proof (forEach_classify ps ([], [])) as Hv.
  destruct (fold_left classifyPair ps ([], [])) as [v r]. simpl in Hv. subst v.
  unfold bind. destruct (Nat.ltb 0 (length r)); simpl; eexists; split; reflexivity.
Qed.

Lemma tagsOf_app (chainId : jsstring) (a b : list Pair) :
  tagsOf chainId (a ++ b) = tagsOf chainId a ++ tagsOf chainId b.
Proof. unfold tagsOf. now rewrite filter_app, map_app. Qed.

(** C4. The transformer returns normally on every page; each tag it returns
    is the tag of a pair of the page whose four text fields are all valid;
    and a pair with an invalid field contributes nothing: the page without
    it gives the same tags. *)
Theorem C4_only_valid_pairs_yield_tags
    (chainId : jsstring) (ps : list Pair) (st : State) :
  exists st',
    transformPairsToTags chainId ps st = (Return (tagsOf chainId ps), st')
    /\ (forall t, In t (tagsOf chainId ps) ->
          exists p, In p ps /\ t = tagOfPair chainId p
                    /\ isValid (name (token0 p)) = true
                    /\ isValid (symbol (token0 p)) = true
                    /\ isValid (name (token1 p)) = true
                    /\ isValid (symbol (token1 p)) = true)
    /\ (forall before p after,
          ps = before ++ p :: after ->
          isValid (name (token0 p)) = false \/ isValid (symbol (token0 p)) = false \/
          isValid (name (token1 p)) = false \/ isValid (symbol (token1 p)) = false ->
          tagsOf chainId ps = tagsOf chainId (before ++ after)).
Proof.
  destruct (transformPairsToTags_tagsOf chainId ps st) as (st' & Hrun & _).
  exists st'. split; [exact Hrun|]. split.
  - intros t Ht. unfold tagsOf in Ht. apply in_map_iff in Ht.
    destruct Ht as (p & <- & Hp). apply filter_In in Hp. destruct Hp as [Hin Hv].
    apply allFieldsValid_true in Hv. exists p. tauto.
  - intros before p after -> Hbad. apply allFieldsValid_false in Hbad.
    rewrite !tagsOf_app. f_equal. unfold tagsOf. simpl. now rewrite Hbad.
Qed.

(** C8. The transformer returns one tag per valid pair, in input order, and
    the Contract Address of a pair's tag is "eip155:", the chain id, a colon
    and the pool id: "eip155:1:0xabc" for chain "1" and pool "0xabc". *)
Theorem C8_one_tag_per_valid_pair_in_order :
  (forall (chainId : jsstring) (ps : list Pair) (st : State),
      fst (transformPairsToTags chainId ps st)
      = Return (map (tagOfPair chainId) (filter allFieldsValid ps)))
  /\ (forall (chainId : jsstring) (ps : list Pair),
        map Contract_Address (map (tagOfPair chainId) (filter allFieldsValid ps))
        = map (fun p => str "eip155:" ++ chainId ++ str ":" ++ id p)
              (filter allFieldsValid ps))
  /\ (forall (ts : number) (t0 t1 : PoolToken),
        Contract_Address
          (tagOfPair (str "1")
             {| id := str "0xabc"; timestamp := ts; token0 := t0; token1 := t1 |})
        = str "eip155:1:0xabc").
Proof.
  split; [|split].
  - intros chainId ps st.
    destruct (transformPairsToTags_tagsOf chainId ps st) as (st' & -> & _).
    reflexivity.
  - intros chainId ps. rewrite map_map. reflexivity.
  - intros ts t0 t1. reflexivity.
Qed.

Lemma C4_witness :
  tagsOf (str "1") [goodPair; badPair] = tagsOf (str "1") ([goodPair] ++ [])
  /\ exists p, In p [goodPair; badPair]
               /\ tagOfPair (str "1") goodPair = tagOfPair (str "1") p
               /\ isValid (name (token0 p)) = true
               /\ isValid (symbol (token0 p)) = true
               /\ isValid (name (token1 p)) = true
               /\ isValid (symbol (token1 p)) = true.
Proof.
  destruct (C4_only_valid_pairs_yield_tags (str "1") [goodPair; badPair] initialState)
    as (st' & _ & Hin & Hdrop).
  split.
  - apply (Hdrop [goodPair] badPair []).
    + reflexivity.
    + right; right; left. reflexivity.
  - apply Hin. left. reflexivity.
Defined.

(** ** URL resolution *)

Lemma ownProperty_None (obj : list (jsstring * SubgraphEntry)) (key : jsstring) :
  ownProperty obj key = None <-> ~ In key (map fst obj).
Proof.
  induction obj as [|[k v] rest IH]; simpl.
  - tauto.
  - destruct (streq k key) eqn:E.
    + apply streq_eq in E. split; [discriminate | intros H; exfalso; auto].
    + rewrite IH. split.
      * intros Hn [Hk | Hin]; [|auto].
        apply streq_eq in Hk. congruence.
      * intros Hn Hin. auto.
Qed.

(** No name inherited from [Object.prototype] converts to a number, so the
    [isNaN] test rejects each of them. *)
Lemma prototype_names_not_numeric (key : jsstring) :
  existsb (streq key) objectPrototypeNames = true -> isNaN_Number key = true.
Proof.
  rewrite existsb_exists. intros (n & Hin & E). apply streq_eq in E. subst n.
  assert (H : forallb isNaN_Number objectPrototypeNames = true) by reflexivity.
  rewrite forallb_forall in H. auto.
Qed.

Lemma prepareUrl_unsupported (chainId apiKey : jsstring) :
  ~ In chainId (map fst SUBGRAPH_URLS) \/ isNaN_Number chainId = true ->
  prepareUrl chainId apiKey = Throw (unsupportedChainError chainId).
Proof.
  intros H. unfold prepareUrl. cbv zeta.
  destruct (isNaN_Number chainId) eqn:Enan.
  - now rewrite orb_true_r.
  - destruct H as [H | H]; [|discriminate].
    apply ownProperty_None in H. unfold getProperty. rewrite H.
    destruct (existsb (streq chainId) objectPrototypeNames) eqn:Eproto.
    + apply prototype_names_not_numeric in Eproto. congruence.
    + reflexivity.
Qed.

(** C6. For a chain identifier that is not a key of the registry, or that is
    not numeric, URL resolution throws an error whose message lists the six
    valid identifiers, and [returnTags] throws that error without calling
    [fetch]: the trace of calls is unchanged. *)
Theorem C6_unsupported_chain_fails_fast
    (network : Network) (fuel : nat) (chainId apiKey : jsstring) (st : State) :
  ~ In chainId (map fst SUBGRAPH_URLS) \/ isNaN_Number chainId = true ->
  map fst SUBGRAPH_URLS
  = [str "1"; str "324"; str "1101"; str "8453"; str "42161"; str "59144"]
  /\ prepareUrl chainId apiKey
     = Throw (newError
                (str "Unsupported or invalid Chain ID provided: " ++ chainId
                 ++ str ". Only the following values are accepted: 1, 324, 1101, 8453, 42161, 59144"))
  /\ returnTags network fuel chainId apiKey st
     = (Some (Throw (newError
                (str "Unsupported or invalid Chain ID provided: " ++ chainId
                 ++ str ". Only the following values are accepted: 1, 324, 1101, 8453, 42161, 59144"))),
        st).
Proof.
  intros H. split; [reflexivity|].
  pose proof (prepareUrl_unsupported chainId apiKey H) as E.
  split.
  - rewrite E. reflexivity.
  - unfold returnTags. rewrite E. reflexivity.
Qed.

Lemma C6_witness :
  prepareUrl (str "56") (str "key")
  = Throw (newError
             (str "Unsupported or invalid Chain ID provided: 56. Only the following values are accepted: 1, 324, 1101, 8453, 42161, 59144"))
  /\ returnTags (mockFetch []) 5 (str "mainnet") (str "key") initialState
     = (Some (Throw (newError
             (str "Unsupported or invalid Chain ID provided: mainnet. Only the following values are accepted: 1, 324, 1101, 8453, 42161, 59144"))),
        initialState).
Proof.
  split.
  - apply (C6_unsupported_chain_fails_fast (mockFetch []) 0 (str "56") (str "key") initialState).
    left. vm_compute. intuition discriminate.
  - apply (C6_unsupported_chain_fails_fast (mockFetch []) 5 (str "mainnet") (str "key") initialState).
    right. reflexivity.
Defined.

(** ** Printing a number and reading it back *)







(** ** The fetcher *)

Lemma forEach_log_errors (errs : list GraphQLErrorItem) (st : State) :
  exists st',
    forEach errs
      (fun error => log (console_error (str "GraphQL error: " ++ message error))) st
    = (Return tt, st')
    /\ calls st' = calls st.
Proof.
  revert st. induction errs as [|e errs IH]; intros st; cbn [forEach].
  - exists st. split; reflexivity.
  - unfold bind, log at 1.
    destruct (IH {| calls := calls st;
                    console := console st
                               ++ [console_error (str "GraphQL error: " ++ message e)] |})
      as (st' & Hrun & Hcalls).
    exists st'. split; [exact Hrun | exact Hcalls].
Qed.

Ltac run_forEach :=
  match goal with
  | |- context [forEach ?errs ?f ?s] =>
      let st' := fresh "st'" in
      let Hrun := fresh "Hrun" in
      destruct (forEach_log_errors errs s) as (st' & Hrun & ?);
      rewrite Hrun; cbn
  end.

Section FetcherFacts.

Variable network : Network.

(** Every call of [fetchData] makes exactly one [fetch] call, whatever the
    answer. *)
Lemma fetchData_calls (subgraphUrl : jsstring) (ts : number) (st : State) :
  calls (snd (fetchData network subgraphUrl ts st))
  = calls st ++ [({| request_url := subgraphUrl; request_lastTimestamp := ts |},
                  network (calls st)
                    {| request_url := subgraphUrl; request_lastTimestamp := ts |})].
Proof.
  unfold fetchData, bind, fetch, liftCompletion, throw, ret.
  destruct (network (calls st) _) as [[o s [[d [errs|]]|e]]|e]; cbn;
    try reflexivity; destruct o; cbn; try reflexivity.
  - run_forEach. assumption.
  - destruct d as [[[ps|]]|]; reflexivity.
Qed.

(** [fetchData] returns a page exactly when the answer carries one. *)
Lemma fetchData_page (subgraphUrl : jsstring) (ts : number) (st : State)
    (ps : list Pair) :
  pageOf (network (calls st)
            {| request_url := subgraphUrl; request_lastTimestamp := ts |}) = Some ps ->
  fetchData network subgraphUrl ts st
  = (Return ps,
     {| calls := calls st ++
          [({| request_url := subgraphUrl; request_lastTimestamp := ts |},
            network (calls st)
              {| request_url := subgraphUrl; request_lastTimestamp := ts |})];
        console := console st |}).
Proof.
  unfold fetchData, bind, fetch, liftCompletion, throw, ret, pageOf.
  destruct (network (calls st) _) as [[o s [[d [errs|]]|e]]|e]; cbn;
    try discriminate; destruct o; cbn; try discriminate.
  destruct d as [[[qs|]]|]; try discriminate.
  intros E. inversion E; subst. reflexivity.
Qed.

Lemma fetchData_no_page (subgraphUrl : jsstring) (ts : number) (st : State) :
  pageOf (network (calls st)
            {| request_url := subgraphUrl; request_lastTimestamp := ts |}) = None ->
  exists e, fst (fetchData network subgraphUrl ts st) = Throw e.
Proof.
  unfold fetchData, bind, fetch, liftCompletion, throw, ret, pageOf.
  destruct (network (calls st) _) as [[o s [[d [errs|]]|e]]|e]; cbn;
    try (intros _; eexists; reflexivity);
    destruct o; cbn; try (intros _; eexists; reflexivity).
  - intros _. run_forEach. eexists; reflexivity.
  - destruct d as [[[ps|]]|]; cbn; try discriminate; intros _; eexists; reflexivity.
Qed.

Lemma fetchData_Return (subgraphUrl : jsstring) (ts : number) (st : State)
    (ps : list Pair) :
  fst (fetchData network subgraphUrl ts st) = Return ps ->
  pageOf (network (calls st)
            {| request_url := subgraphUrl; request_lastTimestamp := ts |}) = Some ps.
Proof.
  intros Hret.
  destruct (pageOf (network (calls st)
                      {| request_url := subgraphUrl; request_lastTimestamp := ts |}))
    as [qs|] eqn:E.
  - rewrite (fetchData_page _ _ _ _ E) in Hret. cbn in Hret. congruence.
  - destruct (fetchData_no_page _ _ _ E) as (e & He). congruence.
Qed.

End FetcherFacts.

(** C9. When the parsed body of a successful response has an [errors]
    field, even an empty list, [fetchData] throws the GraphQL failure,
    whatever the [data] field holds. *)
Theorem C9_errors_field_always_fails
    (network : Network) (subgraphUrl : jsstring) (ts : number) (st : State)
    (code : Z) (d : option GraphQLData) (errs : list GraphQLErrorItem) :
  network (calls st) {| request_url := subgraphUrl; request_lastTimestamp := ts |}
  = Return {| ok := true; status := code;
              json := Return {| data := d; errors := Some errs |} |} ->
  fst (fetchData network subgraphUrl ts st)
  = Throw (newError (str "GraphQL errors occurred: see logs for details.")).
Proof.
  intros Hnet. unfold fetchData, bind, fetch, liftCompletion, throw.
  rewrite Hnet. cbn. run_forEach. reflexivity.
Qed.

Lemma C9_witness :
  fst (fetchData
         (mockFetch
            [Return {| ok := true; status := 200;
                       json := Return {| data := Some {| pairs := Some [goodPair] |};
                                         errors := Some [] |} |}])
         (str "https://example.org/") (Int 0) initialState)
  = Throw (newError (str "GraphQL errors occurred: see logs for details.")).
Proof.
  apply (C9_errors_field_always_fails _ _ _ _ 200
           (Some {| pairs := Some [goodPair] |}) []).
  reflexivity.
Defined.

(** ** The pagination loop *)

Section LoopFacts.

Variable network : Network.
Variables chainId url : jsstring.

Local Notation "'requestAt' ts" :=
  {| request_url := url; request_lastTimestamp := ts |}
  (at level 10, ts at level 9, only parsing).

Lemma catchBlock_rethrown (A : Type) (e : JsValue) (st : State) :
  exists st', @catchBlock A e st = (Throw (rethrown e), st')
              /\ calls st' = calls st.
Proof.
  unfold catchBlock, rethrown, bind, log, throw.
  destruct (isError e); eexists; split; reflexivity.
Qed.

Ltac run_transform :=
  match goal with
  | |- context [transformPairsToTags ?c ?ps ?s] =>
      let st' := fresh "st'" in
      let Hrun := fresh "Hrun" in
      let Hcalls := fresh "Hcalls" in
      destruct (transformPairsToTags_tagsOf c ps s) as (st' & Hrun & Hcalls);
      rewrite Hrun; cbn [calls] in Hcalls
  end.

Lemma tryBlock_full_page (ts : number) (tags : list ContractTag) (st : State)
    (ps : list Pair) :
  pageOf (network (calls st) (requestAt ts)) = Some ps ->
  length ps = 1000 ->
  exists p st1,
    nth_error ps (length ps - 1) = Some p
    /\ calls st1 = calls st ++ [(requestAt ts, network (calls st) (requestAt ts))]
    /\ tryBlock network chainId url ts tags st
       = (Return {| vars_isMore := true;
                    vars_lastTimestamp := nextCursor p;
                    vars_allTags := tags ++ tagsOf chainId ps |}, st1).
Proof.
  intros Hpage Hlen. unfold tryBlock, bind.
  rewrite (fetchData_page network url ts st ps Hpage).
  run_transform.
  destruct (nth_error ps (length ps - 1)) as [p|] eqn:Hlast.
  - exists p, st'. split; [reflexivity|]. split; [exact Hcalls|].
    rewrite Hlen. change (Nat.eqb 1000 1000) with true. cbv iota.
    reflexivity.
  - apply nth_error_None in Hlast. lia.
Qed.

Lemma tryBlock_short_page (ts : number) (tags : list ContractTag) (st : State)
    (ps : list Pair) :
  pageOf (network (calls st) (requestAt ts)) = Some ps ->
  length ps <> 1000 ->
  exists st1,
    calls st1 = calls st ++ [(requestAt ts, network (calls st) (requestAt ts))]
    /\ tryBlock network chainId url ts tags st
       = (Return {| vars_isMore := false;
                    vars_lastTimestamp := ts;
                    vars_allTags := tags ++ tagsOf chainId ps |}, st1).
Proof.
  intros Hpage Hlen. unfold tryBlock, bind.
  rewrite (fetchData_page network url ts st ps Hpage).
  run_transform.
  exists st'. split; [exact Hcalls|].
  apply Nat.eqb_neq in Hlen. rewrite Hlen. reflexivity.
Qed.

Lemma tryBlock_fetch_throws (ts : number) (tags : list ContractTag) (st : State)
    (e : JsValue) :
  fst (fetchData network url ts st) = Throw e ->
  tryBlock network chainId url ts tags st
  = (Throw e, snd (fetchData network url ts st)).
Proof.
  intros Hthrow. unfold tryBlock, bind.
  destruct (fetchData network url ts st) as [c st1]. cbn in Hthrow. subst c.
  reflexivity.
Qed.

(** A full page: the loop goes round again, with the timestamp of the last
    raw pair as cursor. *)
Lemma whileLoop_full_page (fuel : nat) (ts : number) (tags : list ContractTag)
    (st : State) (ps : list Pair) :
  pageOf (network (calls st) (requestAt ts)) = Some ps ->
  length ps = 1000 ->
  exists p st1,
    nth_error ps (length ps - 1) = Some p
    /\ calls st1 = calls st ++ [(requestAt ts, network (calls st) (requestAt ts))]
    /\ whileLoop network (S fuel) chainId url ts tags st
       = whileLoop network fuel chainId url (nextCursor p)
           (tags ++ tagsOf chainId ps) st1.
Proof.
  intros Hpage Hlen.
  destruct (tryBlock_full_page ts tags st ps Hpage Hlen)
    as (p & st1 & Hlast & Hcalls & Hrun).
  exists p, st1. split; [exact Hlast|]. split; [exact Hcalls|].
  cbn [whileLoop]. unfold tryCatch. rewrite Hrun. reflexivity.
Qed.

(** Any other page: the loop ends and the accumulated tags are returned. *)
Lemma whileLoop_short_page (fuel : nat) (ts : number) (tags : list ContractTag)
    (st : State) (ps : list Pair) :
  pageOf (network (calls st) (requestAt ts)) = Some ps ->
  length ps <> 1000 ->
  exists st1,
    calls st1 = calls st ++ [(requestAt ts, network (calls st) (requestAt ts))]
    /\ whileLoop network (S fuel) chainId url ts tags st
       = (Some (Return (tags ++ tagsOf chainId ps)), st1).
Proof.
  intros Hpage Hlen.
  destruct (tryBlock_short_page ts tags st ps Hpage Hlen) as (st1 & Hcalls & Hrun).
  exists st1. split; [exact Hcalls|].
  cbn [whileLoop]. unfold tryCatch. rewrite Hrun. reflexivity.
Qed.

(** A throw inside the [try] block: the loop ends with the error built by
    the [catch] block; the tags accumulated so far are not returned. *)
Lemma whileLoop_throw (fuel : nat) (ts : number) (tags : list ContractTag)
    (st st1 : State) (e : JsValue) :
  tryBlock network chainId url ts tags st = (Throw e, st1) ->
  exists st2,
    calls st2 = calls st1
    /\ whileLoop network (S fuel) chainId url ts tags st
       = (Some (Throw (rethrown e)), st2).
Proof.
  intros Hrun.
  destruct (catchBlock_rethrown LoopVars e st1) as (st2 & Hcatch & Hcalls).
  exists st2. split; [exact Hcalls|].
  cbn [whileLoop]. unfold tryCatch. rewrite Hrun, Hcatch. reflexivity.
Qed.

Lemma whileLoop_fetch_throws (fuel : nat) (ts : number) (tags : list ContractTag)
    (st : State) (e : JsValue) :
  fst (fetchData network url ts st) = Throw e ->
  exists st2,
    calls st2 = calls st ++ [(requestAt ts, network (calls st) (requestAt ts))]
    /\ whileLoop network (S fuel) chainId url ts tags st
       = (Some (Throw (rethrown e)), st2).
Proof.
  intros Hthrow.
  destruct (whileLoop_throw fuel ts tags st _ e
              (tryBlock_fetch_throws ts tags st e Hthrow)) as (st2 & Hcalls & Hrun).
  exists st2. split; [|exact Hrun].
  rewrite Hcalls. apply fetchData_calls.
Qed.

(** The trace of a run of the loop: the calls it adds obey the cursor
    discipline, and a run with fuel makes at least one call. *)
Lemma whileLoop_trace (fuel : nat) :
  forall (ts : number) (tags : list ContractTag) (st : State),
  exists new,
    calls (snd (whileLoop network fuel chainId url ts tags st)) = calls st ++ new
    /\ chained ts new
    /\ (0 < fuel -> new <> []).
Proof.
  induction fuel as [|fuel IH]; intros ts tags st.
  - exists []. cbn. rewrite app_nil_r. repeat split. lia.
  - destruct (pageOf (network (calls st) (requestAt ts))) as [ps|] eqn:Hpage.
    + destruct (Nat.eq_dec (length ps) 1000) as [Hlen|Hlen].
      * destruct (whileLoop_full_page fuel ts tags st ps Hpage Hlen)
          as (p & st1 & Hlast & Hcalls & ->).
        destruct (IH (nextCursor p) (tags ++ tagsOf chainId ps) st1)
          as (new & Hnew & Hchain & _).
        exists ((requestAt ts, network (calls st) (requestAt ts)) :: new).
        split; [|split].
        -- rewrite Hnew, Hcalls, <- app_assoc. reflexivity.
        -- cbn [chained request_lastTimestamp]. split; [reflexivity|].
           destruct new as [|c new]; [exact I|].
           exists ps, p. auto.
        -- discriminate.
      * destruct (whileLoop_short_page fuel ts tags st ps Hpage Hlen)
          as (st1 & Hcalls & ->).
        exists [(requestAt ts, network (calls st) (requestAt ts))].
        cbn. repeat split; [exact Hcalls | discriminate].
    + destruct (fetchData_no_page network url ts st Hpage) as (e & Hthrow).
      destruct (whileLoop_fetch_throws fuel ts tags st e Hthrow)
        as (st2 & Hcalls & ->).
      exists [(requestAt ts, network (calls st) (requestAt ts))].
      cbn. repeat split; [exact Hcalls | discriminate].
Qed.

End LoopFacts.


(** ** The claims on the pagination loop *)

Lemma fetchData_http_error (network : Network) (url : jsstring) (ts : number)
    (st : State) (response : Response) :
  network (calls st) {| request_url := url; request_lastTimestamp := ts |}
  = Return response ->
  ok response = false ->
  fst (fetchData network url ts st)
  = Throw (newError (str "HTTP error: " ++ numberToString (Int (status response)))).
Proof.
  intros Hnet Hok. unfold fetchData, bind, fetch, throw.
  rewrite Hnet, Hok. reflexivity.
Qed.

Lemma whileLoop_calls_grow (network : Network) (chainId url : jsstring)
    (fuel : nat) (ts : number) (tags : list ContractTag) (st : State) :
  length (calls st) + 1
  <= length (calls (snd (whileLoop network (S fuel) chainId url ts tags st))).
Proof.
  destruct (whileLoop_trace network chainId url (S fuel) ts tags st)
    as (new & -> & _ & Hne).
  rewrite length_app. destruct new as [|c new]; [|cbn; lia].
  exfalso. apply Hne; [lia | reflexivity].
Qed.

(** C2. After a page has been fetched, the loop goes on to another fetch
    when the page has exactly 1000 raw pairs, and otherwise ends at once,
    returning the accumulated tags without a further fetch. With pages of
    1000, 1000 and 437 pairs, three fetch calls are made and the tags of the
    valid pairs of the three pages are returned in order; with an empty first
    page, one fetch call is made and no tag is returned. *)
Theorem C2_continue_iff_page_of_1000 :
  (forall (network : Network) (chainId url : jsstring) (ts : number)
          (tags : list ContractTag) (st : State) (ps : list Pair),
      fst (fetchData network url ts st) = Return ps ->
      (length ps = 1000 ->
       forall fuel,
         length (calls st) + 2
         <= length (calls (snd (whileLoop network (S (S fuel)) chainId url ts tags st))))
      /\ (length ps <> 1000 ->
          forall fuel, exists st1,
            whileLoop network (S fuel) chainId url ts tags st
            = (Some (Return (tags ++ tagsOf chainId ps)), st1)
            /\ length (calls st1) = length (calls st) + 1))
  /\ (forall (chainId apiKey url : jsstring) (p1 p2 p3 : list Pair) (fuel : nat),
        prepareUrl chainId apiKey = Return url ->
        length p1 = 1000 -> length p2 = 1000 -> length p3 = 437 ->
        3 <= fuel ->
        exists st',
          returnTags (mockFetch [pageResponse p1; pageResponse p2; pageResponse p3])
            fuel chainId apiKey initialState
          = (Some (Return (tagsOf chainId p1 ++ tagsOf chainId p2 ++ tagsOf chainId p3)),
             st')
          /\ length (calls st') = 3)
  /\ (forall (chainId apiKey url : jsstring) (fuel : nat),
        prepareUrl chainId apiKey = Return url ->
        1 <= fuel ->
        exists st',
          returnTags (mockFetch [pageResponse []]) fuel chainId apiKey initialState
          = (Some (Return []), st')
          /\ length (calls st') = 1).
Proof.
  split; [|split].
  - intros network chainId url ts tags st ps Hfetch.
    apply fetchData_Return in Hfetch. split; intros Hlen fuel.
    + destruct (whileLoop_full_page network chainId url (S fuel) ts tags st ps Hfetch Hlen)
        as (p & st1 & _ & Hcalls & ->).
      pose proof (whileLoop_calls_grow network chainId url fuel (nextCursor p)
                    (tags ++ tagsOf chainId ps) st1) as Hgrow.
      rewrite Hcalls, length_app in Hgrow. cbn [length] in Hgrow. lia.
    + destruct (whileLoop_short_page network chainId url fuel ts tags st ps Hfetch Hlen)
        as (st1 & Hcalls & Hrun).
      exists st1. split; [exact Hrun|].
      rewrite Hcalls, length_app. reflexivity.
  - intros chainId apiKey url p1 p2 p3 fuel Hurl H1 H2 H3 Hfuel.
    destruct fuel as [|[|[|fuel]]]; try lia.
    unfold returnTags. rewrite Hurl.
    set (network := mockFetch [pageResponse p1; pageResponse p2; pageResponse p3]).
    destruct (whileLoop_full_page network chainId url (S (S fuel)) (Int 0) []
                initialState p1 eq_refl H1) as (q1 & st1 & _ & Hc1 & ->).
    cbn [calls initialState app] in Hc1.
    assert (Hp2 : pageOf (network (calls st1)
                    {| request_url := url; request_lastTimestamp := nextCursor q1 |})
                  = Some p2) by (rewrite Hc1; reflexivity).
    destruct (whileLoop_full_page network chainId url (S fuel) (nextCursor q1)
                ([] ++ tagsOf chainId p1) st1 p2 Hp2 H2) as (q2 & st2 & _ & Hc2 & ->).
    rewrite Hc1 in Hc2. cbn [app] in Hc2.
    assert (Hp3 : pageOf (network (calls st2)
                    {| request_url := url; request_lastTimestamp := nextCursor q2 |})
                  = Some p3) by (rewrite Hc2; reflexivity).
    destruct (whileLoop_short_page network chainId url fuel (nextCursor q2)
                (([] ++ tagsOf chainId p1) ++ tagsOf chainId p2) st2 p3 Hp3
                ltac:(lia)) as (st3 & Hc3 & ->).
    exists st3. split.
    + cbn [app]. now rewrite <- app_assoc.
    + rewrite Hc3, Hc2. reflexivity.
  - intros chainId apiKey url fuel Hurl Hfuel.
    destruct fuel as [|fuel]; try lia.
    unfold returnTags. rewrite Hurl.
    destruct (whileLoop_short_page (mockFetch [pageResponse []]) chainId url fuel
                (Int 0) [] initialState [] eq_refl ltac:(discriminate))
      as (st1 & Hc1 & ->).
    exists st1. split; [reflexivity|]. rewrite Hc1. reflexivity.
Qed.

Lemma C2_witness :
  length (calls initialState) + 2
  <= length (calls (snd (whileLoop
                           (mockFetch [pageResponse fullPage; pageResponse []])
                           2 (str "1") sampleUrl (Int 0) [] initialState)))
  /\ (exists st1,
        whileLoop (mockFetch [pageResponse [goodPair; badPair]])
          1 (str "1") sampleUrl (Int 0) [] initialState
        = (Some (Return ([] ++ tagsOf (str "1") [goodPair; badPair])), st1)
        /\ length (calls st1) = length (calls initialState) + 1)
  /\ (exists st',
        returnTags
          (mockFetch [pageResponse fullPage; pageResponse pageEndingInRejected;
                      pageResponse lastPage])
          3 (str "1") (str "key") initialState
        = (Some (Return (tagsOf (str "1") fullPage
                         ++ tagsOf (str "1") pageEndingInRejected
                         ++ tagsOf (str "1") lastPage)), st')
        /\ length (calls st') = 3)
  /\ (exists st',
        returnTags (mockFetch [pageResponse []]) 1 (str "1") (str "key") initialState
        = (Some (Return []), st')
        /\ length (calls st') = 1).
Proof.
  destruct C2_continue_iff_page_of_1000 as (Hstep & Hthree & Hempty).
  split; [|split; [|split]].
  - apply (Hstep (mockFetch [pageResponse fullPage; pageResponse []])
             (str "1") sampleUrl (Int 0) [] initialState fullPage);
      vm_compute; reflexivity.
  - apply (Hstep (mockFetch [pageResponse [goodPair; badPair]])
             (str "1") sampleUrl (Int 0) [] initialState [goodPair; badPair]).
    + vm_compute; reflexivity.
    + vm_compute. discriminate.
  - apply (Hthree (str "1") (str "key") sampleUrl);
      first [lia | vm_compute; reflexivity].
  - apply (Hempty (str "1") (str "key") sampleUrl); [vm_compute; reflexivity | lia].
Defined.

(** C5. When [fetchData] throws in an iteration, the loop ends by throwing
    the error built by the [catch] block, whatever tags earlier pages have
    accumulated. With a first page of 1000 pairs and a second answer whose
    [ok] is false, [returnTags] throws after two fetch calls and returns no
    tags. *)
Theorem C5_fetch_failure_discards_tags :
  (forall (network : Network) (chainId url : jsstring) (ts : number)
          (tags : list ContractTag) (st : State) (e : JsValue) (fuel : nat),
      fst (fetchData network url ts st) = Throw e ->
      exists st',
        whileLoop network (S fuel) chainId url ts tags st
        = (Some (Throw (rethrown e)), st'))
  /\ (forall (chainId apiKey url : jsstring) (p1 : list Pair)
             (response : Response) (fuel : nat),
        prepareUrl chainId apiKey = Return url ->
        length p1 = 1000 ->
        ok response = false ->
        2 <= fuel ->
        exists st',
          returnTags (mockFetch [pageResponse p1; Return response])
            fuel chainId apiKey initialState
          = (Some (Throw (newError
                            (str "Failed fetching data: Error: HTTP error: "
                             ++ numberToString (Int (status response))))),
             st')
          /\ length (calls st') = 2).
Proof.
  split.
  - intros network chainId url ts tags st e fuel Hthrow.
    destruct (whileLoop_fetch_throws network chainId url fuel ts tags st e Hthrow)
      as (st2 & _ & Hrun).
    exists st2. exact Hrun.
  - intros chainId apiKey url p1 response fuel Hurl H1 Hok Hfuel.
    destruct fuel as [|[|fuel]]; try lia.
    unfold returnTags. rewrite Hurl.
    set (network := mockFetch [pageResponse p1; Return response]).
    destruct (whileLoop_full_page network chainId url (S fuel) (Int 0) []
                initialState p1 eq_refl H1) as (q1 & st1 & _ & Hc1 & ->).
    cbn [calls initialState app] in Hc1.
    assert (Hnet : network (calls st1)
                     {| request_url := url; request_lastTimestamp := nextCursor q1 |}
                   = Return response) by (rewrite Hc1; reflexivity).
    pose proof (fetchData_http_error network url (nextCursor q1) st1 response Hnet Hok)
      as Hthrow.
    destruct (whileLoop_fetch_throws network chainId url fuel (nextCursor q1)
                ([] ++ tagsOf chainId p1) st1 _ Hthrow) as (st2 & Hc2 & ->).
    exists st2. split; [reflexivity|]. rewrite Hc2, Hc1. reflexivity.
Qed.

Lemma C5_witness :
  (exists st',
     whileLoop (mockFetch [Return serverError]) 1 (str "1") sampleUrl (Int 0)
       (tagsOf (str "1") fullPage) initialState
     = (Some (Throw (rethrown (newError (str "HTTP error: 500")))), st'))
  /\ (exists st',
        returnTags (mockFetch [pageResponse fullPage; Return serverError])
          2 (str "1") (str "key") initialState
        = (Some (Throw (newError
                          (str "Failed fetching data: Error: HTTP error: "
                           ++ numberToString (Int (status serverError))))),
           st')
        /\ length (calls st') = 2).
Proof.
  destruct C5_fetch_failure_discards_tags as (Hstep & Hpage2).
  split.
  - apply (Hstep (mockFetch [Return serverError])). reflexivity.
  - apply (Hpage2 (str "1") (str "key") sampleUrl fullPage serverError 2);
      first [lia | vm_compute; reflexivity].
Defined.




(** C10. An error thrown by URL resolution, such as the one for an
    unsupported chain, comes out of [returnTags] as it is. A value thrown
    inside the [try] block comes out as a new error. When the value is an
    object with a string message (an Error instance, or another object whose
    message is a string) the new message is "Failed fetching data: "
    followed by the value as a template literal prints it: for an Error
    instance its name, a colon and its message. When the value is an object
    without a string message, or a primitive, the new message is the fixed
    text "An unknown error occurred during fetch operation.". *)
Theorem C10_error_wrapping :
  (forall (network : Network) (fuel : nat) (chainId apiKey : jsstring)
          (st : State) (e : JsValue),
      prepareUrl chainId apiKey = Throw e ->
      returnTags network fuel chainId apiKey st = (Some (Throw e), st))
  /\ (forall (network : Network) (fuel : nat) (chainId url : jsstring)
             (ts : number) (tags : list ContractTag) (st : State) (e : JsValue),
        fst (tryBlock network chainId url ts tags st) = Throw e ->
        exists st',
          whileLoop network (S fuel) chainId url ts tags st
          = (Some (Throw (newError
               match e with
               | ErrorObject name msg =>
                   str "Failed fetching data: "
                   ++ (if isEmptyString name then msg
                       else if isEmptyString msg then name
                       else name ++ str ": " ++ msg)
               | OtherObject (Some _) repr => str "Failed fetching data: " ++ repr
               | OtherObject None _ =>
                   str "An unknown error occurred during fetch operation."
               | Primitive _ =>
                   str "An unknown error occurred during fetch operation."
               end)),
             st')).
Proof.
  split.
  - intros network fuel chainId apiKey st e Hurl.
    unfold returnTags. rewrite Hurl. reflexivity.
  - intros network fuel chainId url ts tags st e Hthrow.
    destruct (tryBlock network chainId url ts tags st) as [c st1] eqn:Hrun.
    cbn [fst] in Hthrow. subst c.
    destruct (whileLoop_throw network chainId url fuel ts tags st st1 e Hrun)
      as (st2 & _ & Hloop).
    exists st2. rewrite Hloop.
    destruct e as [name msg | [m|] repr | repr]; reflexivity.
Qed.

Lemma C10_witness :
  returnTags (mockFetch []) 3 (str "56") (str "key") initialState
  = (Some (Throw (newError
       (str "Unsupported or invalid Chain ID provided: 56. Only the following values are accepted: 1, 324, 1101, 8453, 42161, 59144"))),
     initialState)
  /\ (exists st',
        whileLoop (mockFetch [Return serverError]) 1 (str "1") sampleUrl (Int 0) []
          initialState
        = (Some (Throw (newError
                          (str "Failed fetching data: Error: HTTP error: 500"))),
           st'))
  /\ (exists st',
        whileLoop
          (mockFetch [Throw (OtherObject (Some (str "boom")) (str "[object Object]"))])
          1 (str "1") sampleUrl (Int 0) [] initialState
        = (Some (Throw (newError (str "Failed fetching data: [object Object]"))),
           st'))
  /\ (exists st',
        whileLoop (mockFetch [Throw (OtherObject None (str "[object Object]"))])
          1 (str "1") sampleUrl (Int 0) [] initialState
        = (Some (Throw (newError
                          (str "An unknown error occurred during fetch operation."))),
           st'))
  /\ (exists st',
        whileLoop (mockFetch [Throw (Primitive (str "socket hang up"))]) 1 (str "1")
          sampleUrl (Int 0) [] initialState
        = (Some (Throw (newError
                          (str "An unknown error occurred during fetch operation."))),
           st')).
Proof.
  destruct C10_error_wrapping as (Hurl & Hloop).
  split; [|split; [|split; [|split]]].
  - apply Hurl. reflexivity.
  - apply (Hloop (mockFetch [Return serverError]) 0 (str "1") sampleUrl (Int 0) []
             initialState (newError (str "HTTP error: 500"))).
    reflexivity.
  - apply (Hloop
             (mockFetch [Throw (OtherObject (Some (str "boom")) (str "[object Object]"))])
             0 (str "1") sampleUrl (Int 0) [] initialState
             (OtherObject (Some (str "boom")) (str "[object Object]"))).
    reflexivity.
  - apply (Hloop (mockFetch [Throw (OtherObject None (str "[object Object]"))])
             0 (str "1") sampleUrl (Int 0) [] initialState
             (OtherObject None (str "[object Object]"))).
    reflexivity.
  - apply (Hloop (mockFetch [Throw (Primitive (str "socket hang up"))])
             0 (str "1") sampleUrl (Int 0) [] initialState
             (Primitive (str "socket hang up"))).
    reflexivity.
Defined.

(** * Further properties of the code *)

(** ** [truncateString] for any budget *)

Lemma substring_from_start (s : jsstring) (n : Z) :
  (n <= Z.of_nat (length s))%Z ->
  substring s 0 n = firstn (Z.to_nat n) s.
Proof.
  intros Hn. destruct (Z.le_gt_cases 0 n) as [Hpos|Hneg].
  - apply substring_prefix. lia.
  - unfold substring. cbv zeta.
    assert (E0 : Z.min (Z.max 0 0) (Z.of_nat (length s)) = 0%Z) by lia.
    assert (En : Z.min (Z.max n 0) (Z.of_nat (length s)) = 0%Z) by lia.
    rewrite E0, En. cbn.
    destruct n; try lia. reflexivity.
Qed.

Lemma truncateString_long (text : jsstring) (maxLength : Z) :
  (maxLength < Z.of_nat (length text))%Z ->
  truncateString text maxLength
  = firstn (Z.to_nat (maxLength - 3)) text ++ str "...".
Proof.
  intros Hlong. unfold truncateString.
  destruct (Z.gtb_spec (Z.of_nat (length text)) maxLength); [|lia].
  rewrite substring_from_start by lia. reflexivity.
Qed.

Lemma truncateString_short (text : jsstring) (maxLength : Z) :
  (Z.of_nat (length text) <= maxLength)%Z ->
  truncateString text maxLength = text.
Proof.
  intros Hshort. unfold truncateString.
  destruct (Z.gtb_spec (Z.of_nat (length text)) maxLength); [lia | reflexivity].
Qed.

Lemma truncateString_length (text : jsstring) (maxLength : Z) :
  (3 <= maxLength)%Z ->
  Z.of_nat (length (truncateString text maxLength))
  = Z.min (Z.of_nat (length text)) maxLength.
Proof.
  intros Hm. destruct (Z.le_gt_cases (Z.of_nat (length text)) maxLength) as [Hs|Hl].
  - rewrite truncateString_short by exact Hs. lia.
  - rewrite truncateString_long by lia.
    rewrite length_app, length_firstn. change (length (str "...")) with 3. lia.
Qed.

(** X1. For a budget of at least 3, the result of [truncateString] has the
    length of the text or the budget, whichever is smaller: the result never
    exceeds the budget. *)
Theorem X1_truncateString_within_budget (text : jsstring) (maxLength : Z) :
  (3 <= maxLength)%Z ->
  Z.of_nat (length (truncateString text maxLength))
  = Z.min (Z.of_nat (length text)) maxLength.
Proof. exact (truncateString_length text maxLength). Qed.

Lemma X1_witness :
  Z.of_nat (length (truncateString (str "PancakeSwap") 5))
  = Z.min (Z.of_nat (length (str "PancakeSwap"))) 5.
Proof.
  apply (X1_truncateString_within_budget (str "PancakeSwap") 5). lia.
Defined.

Lemma truncateString_small (text : jsstring) (maxLength : Z) :
  (maxLength < 3)%Z ->
  (maxLength < Z.of_nat (length text))%Z ->
  truncateString text maxLength = str "...".
Proof.
  intros Hm Hlong. rewrite truncateString_long by exact Hlong.
  replace (Z.to_nat (maxLength - 3)) with 0 by lia. reflexivity.
Qed.

(** X2. For a budget below 3 (negative ones included) a text longer than
    the budget is replaced by the three dots alone, which is longer than the
    budget. *)
Theorem X2_truncateString_small_budget (text : jsstring) (maxLength : Z) :
  (maxLength < 3)%Z ->
  (maxLength < Z.of_nat (length text))%Z ->
  truncateString text maxLength = str "..."
  /\ (maxLength < Z.of_nat (length (truncateString text maxLength)))%Z.
Proof.
  intros Hm Hlong. rewrite (truncateString_small text maxLength Hm Hlong).
  split; [reflexivity|]. change (length (str "...")) with 3. lia.
Qed.

Lemma X2_witness :
  truncateString (str "CAKE") 2 = str "..."
  /\ (2 < Z.of_nat (length (truncateString (str "CAKE") 2)))%Z.
Proof.
  apply (X2_truncateString_small_budget (str "CAKE") 2); [lia | vm_compute; reflexivity].
Defined.

(** X3. Truncating twice with the same budget is the same as truncating
    once, for every text and every budget. *)
Theorem X3_truncateString_idempotent (text : jsstring) (maxLength : Z) :
  truncateString (truncateString text maxLength) maxLength
  = truncateString text maxLength.
Proof.
  destruct (Z.le_gt_cases (Z.of_nat (length text)) maxLength) as [Hs|Hl].
  - rewrite (truncateString_short text maxLength Hs).
    exact (truncateString_short text maxLength Hs).
  - destruct (Z.le_gt_cases 3 maxLength) as [Hm|Hm].
    + apply truncateString_short. rewrite truncateString_length by exact Hm. lia.
    + rewrite (truncateString_small text maxLength Hm Hl).
      apply truncateString_small; [exact Hm|].
      change (length (str "...")) with 3. lia.
Qed.

(** X4. The Public Name Tag of every tag has at most 50 characters: the
    symbols text cut to 45 and the five characters of " Pool". *)
Theorem X4_public_name_tag_at_most_50 (chainId : jsstring) (pair : Pair) :
  length (Public_Name_Tag (tagOfPair chainId pair)) <= 50.
Proof.
  cbn [tagOfPair Public_Name_Tag]. rewrite length_app.
  change (length (str " Pool")) with 5.
  pose proof (truncateString_length
                (symbol (token0 pair) ++ str "/" ++ symbol (token1 pair)) 45
                ltac:(lia)) as Hlen.
  lia.
Qed.

(** ** The validator on blank texts and on texts put together *)

Lemma trimStart_all_blank (s : jsstring) :
  forallb isWhiteSpace (trimStart s) = forallb isWhiteSpace s.
Proof.
  induction s as [|c r IH]; [reflexivity|].
  cbn [trimStart]. destruct (isWhiteSpace c) eqn:E.
  - cbn [forallb]. rewrite E. exact IH.
  - reflexivity.
Qed.

Lemma trimStart_nil (s : jsstring) :
  trimStart s = [] <-> forallb isWhiteSpace s = true.
Proof.
  induction s as [|c r IH]; cbn [trimStart forallb].
  - tauto.
  - destruct (isWhiteSpace c); [exact IH|]. split; discriminate.
Qed.

Lemma forallb_rev (f : N -> bool) (s : jsstring) :
  forallb f (rev s) = forallb f s.
Proof.
  induction s as [|c r IH]; [reflexivity|].
  cbn [rev forallb]. rewrite forallb_app, IH. cbn [forallb].
  rewrite andb_true_r. apply andb_comm.
Qed.

Lemma trim_nil (s : jsstring) :
  trim s = [] <-> forallb isWhiteSpace s = true.
Proof.
  unfold trim, trimEnd. split.
  - intros H. apply (f_equal (@rev N)) in H. rewrite rev_involutive in H.
    cbn [rev] in H. apply trimStart_nil in H.
    rewrite forallb_rev, trimStart_all_blank in H. exact H.
  - intros H. apply trimStart_nil in H. rewrite H. reflexivity.
Qed.

Lemma matchRest_In (s : jsstring) : matchRest s = true <-> In GT_SIGN s.
Proof.
  induction s as [|c r IH]; cbn [matchRest In].
  - split; [discriminate | tauto].
  - destruct (N.eqb_spec c GT_SIGN) as [->|Hne].
    + tauto.
    + rewrite IH. split; [tauto | intros [E|H]; [congruence | exact H]].
Qed.

Lemma regexTest_intro (pre rest : jsstring) :
  In GT_SIGN rest -> regexTest (pre ++ LT_SIGN :: rest) = true.
Proof.
  intros Hgt. induction pre as [|c pre IH].
  - cbn [app regexTest matchHere]. apply matchRest_In in Hgt. rewrite Hgt.
    reflexivity.
  - cbn [app regexTest]. rewrite IH. apply orb_true_r.
Qed.

Lemma TagLike_brackets (s : jsstring) :
  TagLike s -> In LT_SIGN s /\ In GT_SIGN s.
Proof.
  intros (pre & mid & post & -> & _). split.
  - apply in_or_app. right. left. reflexivity.
  - apply in_or_app. right. right. apply in_or_app. right. left. reflexivity.
Qed.

(** X5. A text is rejected exactly when every one of its code units is
    white space (the empty text included) or it has a tag-like substring. *)
Theorem X5_invalid_iff_blank_or_tag (text : jsstring) :
  containsInvalidValue text = true
  <-> Forall (fun c => isWhiteSpace c = true) text \/ TagLike text.
Proof.
  rewrite containsInvalidValue_spec, trim_nil, forallb_forall, Forall_forall.
  reflexivity.
Qed.

(** X6. A text that has a character other than white space and lacks an
    opening angle bracket, or lacks a closing one, is accepted. *)
Theorem X6_one_sided_bracket_is_valid (text : jsstring) (c : N) :
  In c text -> isWhiteSpace c = false ->
  ~ In LT_SIGN text \/ ~ In GT_SIGN text ->
  containsInvalidValue text = false.
Proof.
  intros Hin Hc Hside.
  destruct (containsInvalidValue text) eqn:E; [|reflexivity].
  apply containsInvalidValue_spec in E. destruct E as [Hblank | Htag].
  - apply trim_nil in Hblank. rewrite forallb_forall in Hblank.
    specialize (Hblank c Hin). congruence.
  - apply TagLike_brackets in Htag. tauto.
Qed.

Lemma X6_witness :
  containsInvalidValue (str "5 > 3") = false
  /\ containsInvalidValue (str "<3") = false.
Proof.
  split.
  - apply (X6_one_sided_bracket_is_valid (str "5 > 3") 53).
    + left. reflexivity.
    + reflexivity.
    + left. vm_compute. intuition discriminate.
  - apply (X6_one_sided_bracket_is_valid (str "<3") 51).
    + right. left. reflexivity.
    + reflexivity.
    + right. vm_compute. intuition discriminate.
Defined.

(** X7. Validation of the four fields one by one does not carry over to the
    generated texts: with the symbols "<A" and "B>", which both pass, and
    any two names that pass, the pair is accepted, yet its Public Name Tag
    and its Public Note each contain a tag-like substring. *)
Theorem X7_generated_text_can_hold_a_tag
    (chainId pid id0 id1 name0 name1 : jsstring) (ts : number) :
  isValid name0 = true -> isValid name1 = true ->
  allFieldsValid
    {| id := pid; timestamp := ts;
       token0 := {| token_id := id0; name := name0; symbol := str "<A" |};
       token1 := {| token_id := id1; name := name1; symbol := str "B>" |} |} = true
  /\ containsInvalidValue
       (Public_Name_Tag
          (tagOfPair chainId
             {| id := pid; timestamp := ts;
                token0 := {| token_id := id0; name := name0; symbol := str "<A" |};
                token1 := {| token_id := id1; name := name1; symbol := str "B>" |} |}))
     = true
  /\ containsInvalidValue
       (Public_Note
          (tagOfPair chainId
             {| id := pid; timestamp := ts;
                token0 := {| token_id := id0; name := name0; symbol := str "<A" |};
                token1 := {| token_id := id1; name := name1; symbol := str "B>" |} |}))
     = true.
Proof.
  intros H0 H1. split; [|split].
  - unfold allFieldsValid. cbn [token0 token1 name symbol]. rewrite H0, H1.
    reflexivity.
  - reflexivity.
  - unfold containsInvalidValue. cbv zeta. apply orb_true_iff. right.
    cbn [tagOfPair Public_Note token0 token1 name symbol].
    replace (str "The liquidity pool contract on PancakeSwap v2 for the "
             ++ name0 ++ str " (" ++ str "<A" ++ str ") / "
             ++ name1 ++ str " (" ++ str "B>" ++ str ") pair.")
      with ((str "The liquidity pool contract on PancakeSwap v2 for the "
             ++ name0 ++ str " (")
            ++ LT_SIGN :: (str "A" ++ str ") / "
                           ++ name1 ++ str " (" ++ str "B>" ++ str ") pair."))
      by (rewrite <- !app_assoc; reflexivity).
    apply regexTest_intro.
    do 4 (apply in_or_app; right). apply in_or_app; left.
    right; left; reflexivity.
Qed.

Lemma X7_witness :
  allFieldsValid
    {| id := str "0xabc"; timestamp := Int 1;
       token0 := {| token_id := str "0x01"; name := str "Token A"; symbol := str "<A" |};
       token1 := {| token_id := str "0x02"; name := str "Token B"; symbol := str "B>" |} |}
  = true
  /\ containsInvalidValue
       (Public_Name_Tag
          (tagOfPair (str "1")
             {| id := str "0xabc"; timestamp := Int 1;
                token0 := {| token_id := str "0x01"; name := str "Token A";
                             symbol := str "<A" |};
                token1 := {| token_id := str "0x02"; name := str "Token B";
                             symbol := str "B>" |} |}))
     = true
  /\ containsInvalidValue
       (Public_Note
          (tagOfPair (str "1")
             {| id := str "0xabc"; timestamp := Int 1;
                token0 := {| token_id := str "0x01"; name := str "Token A";
                             symbol := str "<A" |};
                token1 := {| token_id := str "0x02"; name := str "Token B";
                             symbol := str "B>" |} |}))
     = true.
Proof.
  apply (X7_generated_text_can_hold_a_tag (str "1") (str "0xabc") (str "0x01")
           (str "0x02") (str "Token A") (str "Token B") (Int 1)); reflexivity.
Defined.

(** ** The transformer on joined pages and on the console *)

(** X8. Transforming two pages put end to end gives the tags of the first
    followed by the tags of the second, whatever the states the three runs
    start from. *)
Theorem X8_transform_of_joined_pages
    (chainId : jsstring) (a b : list Pair) (st sta stb : State) :
  exists ta tb,
    fst (transformPairsToTags chainId a sta) = Return ta
    /\ fst (transformPairsToTags chainId b stb) = Return tb
    /\ fst (transformPairsToTags chainId (a ++ b) st) = Return (ta ++ tb).
Proof.
  destruct (transformPairsToTags_tagsOf chainId a sta) as (s1 & -> & _).
  destruct (transformPairsToTags_tagsOf chainId b stb) as (s2 & -> & _).
  destruct (transformPairsToTags_tagsOf chainId (a ++ b) st) as (s3 & -> & _).
  exists (tagsOf chainId a), (tagsOf chainId b).
  repeat split. cbn [fst]. now rewrite tagsOf_app.
Qed.

Lemma classifyPair_rejected (v : list Pair) (r : list jsstring) (p : Pair) :
  length (snd (classifyPair (v, r) p))
  = length r + (if tokenInvalid (token0 p) then 1 else 0)
    + (if tokenInvalid (token1 p) then 1 else 0).
Proof.
  unfold classifyPair, tokenInvalid.
  destruct (containsInvalidValue (name (token0 p)));
    destruct (containsInvalidValue (symbol (token0 p)));
    destruct (containsInvalidValue (name (token1 p)));
    destruct (containsInvalidValue (symbol (token1 p)));
    cbn [orb snd]; rewrite ?length_app; cbn [length]; lia.
Qed.

Lemma forEach_rejected (ps : list Pair) :
  forall acc,
    length (snd (fold_left classifyPair ps acc))
    = length (snd acc) + invalidTokens ps.
Proof.
  unfold invalidTokens.
  induction ps as [|p ps IH]; intros [v r]; cbn [fold_left filter snd length].
  - lia.
  - rewrite IH. destruct (classifyPair (v, r) p) as [v' r'] eqn:E.
    pose proof (classifyPair_rejected v r p) as Hr. rewrite E in Hr.
    cbn [snd] in *. rewrite Hr.
    destruct (tokenInvalid (token0 p)); destruct (tokenInvalid (token1 p));
      cbn [length]; lia.
Qed.

(** X9. The transformer never touches the trace of fetch calls. On a page
    without an invalid token it leaves the console as it is; otherwise it
    writes exactly one "Rejected contracts:" entry, with one line per invalid
    token of the page. *)
Theorem X9_transformer_console
    (chainId : jsstring) (ps : list Pair) (st : State) :
  calls (snd (transformPairsToTags chainId ps st)) = calls st
  /\ (invalidTokens ps = 0 -> snd (transformPairsToTags chainId ps st) = st)
  /\ (0 < invalidTokens ps ->
      exists lines,
        console (snd (transformPairsToTags chainId ps st))
        = console st ++ [console_log (str "Rejected contracts:") lines]
        /\ length lines = invalidTokens ps).
Proof.
  unfold transformPairsToTags.
  pose proof (forEach_rejected ps ([], [])) as Hr.
  destruct (fold_left classifyPair ps ([], [])) as [v r].
  cbn [snd length] in Hr. unfold bind, log, ret.
  destruct (Nat.ltb_spec 0 (length r)) as [Hpos|Hzero]; cbn [snd calls console].
  - split; [reflexivity|]. split; [lia|].
    intros _. exists r. split; [reflexivity | lia].
  - split; [reflexivity|]. split; [reflexivity | lia].
Qed.

Lemma X9_witness :
  snd (transformPairsToTags (str "1") [goodPair; goodPair] initialState) = initialState
  /\ exists lines,
       console (snd (transformPairsToTags (str "1") [goodPair; badPair] initialState))
       = console initialState ++ [console_log (str "Rejected contracts:") lines]
       /\ length lines = invalidTokens [goodPair; badPair].
Proof.
  split.
  - apply (X9_transformer_console (str "1") [goodPair; goodPair] initialState).
    reflexivity.
  - apply (X9_transformer_console (str "1") [goodPair; badPair] initialState).
    vm_compute. lia.
Defined.

(** ** URL resolution for the chains of the registry *)

Ltac registry_case sid :=
  exists (str sid); split; [reflexivity|]; split; [reflexivity|];
  unfold prepareUrl;
  match goal with
  | |- context [encodeURIComponent ?k] => destruct (encodeURIComponent k)
  end; reflexivity.

Lemma prepareUrl_registry (chainId apiKey : jsstring) :
  In chainId (map fst SUBGRAPH_URLS) ->
  exists subgraphId,
    length subgraphId = 44
    /\ forallb isUrlChar subgraphId = true
    /\ prepareUrl chainId apiKey
       = match encodeURIComponent apiKey with
         | Return key =>
             Return (str "https://gateway.thegraph.com/api/" ++ key
                     ++ str "/subgraphs/id/" ++ subgraphId)
         | Throw e => Throw e
         end.
Proof.
  intros H. cbn in H.
  destruct H as [<-|[<-|[<-|[<-|[<-|[<-|[]]]]]]].
  - registry_case "9opY17WnEPD4REcC43yHycQthSeUMQE26wyoeMjZTLEx"%string.
  - registry_case "6dU6WwEz22YacyzbTbSa3CECCmaD8G7oQ8aw6MYd5VKU"%string.
  - registry_case "37WmH5kBu6QQytRpMwLJMGPRbXvHgpuZsWqswW4Finc2"%string.
  - registry_case "2NjL7L4CmQaGJSacM43ofmH6ARf6gJoBeBaJtz9eWAQ9"%string.
  - registry_case "EsL7geTRcA3LaLLM9EcMFzYbUgnvf8RixoEEGErrodB3"%string.
  - registry_case "Eti2Z5zVEdARnuUzjCbv4qcimTLysAizsqH3s6cBfPjB"%string.
Qed.

(** X10. For each of the six chains of the registry, URL resolution depends
    on the API key alone: when the key cannot be encoded the encoding error
    is thrown, and otherwise the URL is the gateway prefix, the encoded key
    in place of the placeholder, and the path to a 44-character subgraph
    id. *)
Theorem X10_prepareUrl_on_registry_chain (chainId apiKey : jsstring) :
  In chainId (map fst SUBGRAPH_URLS) ->
  (forall e, encodeURIComponent apiKey = Throw e ->
             prepareUrl chainId apiKey = Throw e)
  /\ (forall key, encodeURIComponent apiKey = Return key ->
        exists subgraphId,
          length subgraphId = 44
          /\ prepareUrl chainId apiKey
             = Return (str "https://gateway.thegraph.com/api/" ++ key
                       ++ str "/subgraphs/id/" ++ subgraphId)).
Proof.
  intros Hin.
  destruct (prepareUrl_registry chainId apiKey Hin) as (sid & Hlen & _ & Hrun).
  split.
  - intros e He. rewrite Hrun, He. reflexivity.
  - intros key Hkey. exists sid. split; [exact Hlen|].
    rewrite Hrun, Hkey. reflexivity.
Qed.

Lemma X10_witness :
  prepareUrl (str "8453") [56832%N] = Throw uriError
  /\ exists subgraphId,
       length subgraphId = 44
       /\ prepareUrl (str "8453") (str "my key")
          = Return (str "https://gateway.thegraph.com/api/" ++ str "my%20key"
                    ++ str "/subgraphs/id/" ++ subgraphId).
Proof.
  assert (Hin : In (str "8453") (map fst SUBGRAPH_URLS))
    by (right; right; right; left; reflexivity).
  split.
  - apply (X10_prepareUrl_on_registry_chain (str "8453") [56832%N] Hin). reflexivity.
  - apply (X10_prepareUrl_on_registry_chain (str "8453") (str "my key") Hin).
    reflexivity.
Defined.

Lemma hexDigit_safe (n : N) : (n < 16)%N -> isUrlChar (hexDigit n) = true.
Proof.
  intros Hn.
  assert (Hall : forallb (fun k => isUrlChar (hexDigit (N.of_nat k))) (seq 0 16) = true)
    by reflexivity.
  rewrite forallb_forall in Hall.
  rewrite <- (N2Nat.id n). apply Hall. apply in_seq. lia.
Qed.

Lemma percentByte_safe (b : N) :
  (b < 256)%N -> forallb isUrlChar (percentByte b) = true.
Proof.
  intros Hb. unfold percentByte. cbn [forallb].
  rewrite (hexDigit_safe (b / 16)), (hexDigit_safe (b mod 16)); [reflexivity| |].
  - apply N.mod_lt. discriminate.
  - apply N.Div0.div_lt_upper_bound. lia.
Qed.

Lemma percentEncode_safe (cp : N) :
  (cp < 1114112)%N -> forallb isUrlChar (percentEncode cp) = true.
Proof.
  intros Hcp. unfold percentEncode, utf8.
  destruct (N.ltb_spec cp 128); [|destruct (N.ltb_spec cp 2048);
                                  [|destruct (N.ltb_spec cp 65536)]];
    cbn [flat_map]; rewrite ?forallb_app; cbn [forallb];
    rewrite ?percentByte_safe; try reflexivity.
  all: try (apply N.lt_le_trans with (m := (128 + 64)%N);
            [apply N.add_lt_mono_l, N.mod_lt; discriminate | discriminate]).
  all: try lia.
  all: try (assert (cp / 64 < 32)%N by (apply N.Div0.div_lt_upper_bound; lia); lia).
  all: try (assert (cp / 4096 < 16)%N by (apply N.Div0.div_lt_upper_bound; lia); lia).
  all: try (assert (cp / 262144 < 5)%N by (apply N.Div0.div_lt_upper_bound; lia); lia).
Qed.

Lemma encodeURIComponent_safe (n : nat) :
  forall s t,
    length s <= n ->
    Forall (fun c => (c < 65536)%N) s ->
    encodeURIComponent s = Return t ->
    forallb isUrlChar t = true.
Proof.
  induction n as [|n IH]; intros s t Hlen Hwf Henc.
  - destruct s; [|cbn in Hlen; lia]. cbn in Henc. inversion Henc. reflexivity.
  - destruct s as [|c r]; [cbn in Henc; inversion Henc; reflexivity|].
    cbn [length] in Hlen. inversion Hwf as [|? ? Hc Hr]; subst.
    cbn [encodeURIComponent] in Henc.
    destruct (isUriUnreserved c) eqn:Eun.
    + destruct (encodeURIComponent r) as [t'|e] eqn:Er; inversion Henc; subst.
      cbn [forallb]. unfold isUrlChar at 1. rewrite Eun.
      apply (IH r t'); [lia | exact Hr | exact Er].
    + destruct (isLowSurrogate c); [discriminate|].
      destruct (isHighSurrogate c) eqn:Ehigh.
      * destruct r as [|d r']; [discriminate|].
        destruct (isLowSurrogate d) eqn:Elow; [|discriminate].
        destruct (encodeURIComponent r') as [t'|e] eqn:Er; inversion Henc; subst.
        rewrite forallb_app. inversion Hr; subst.
        rewrite (IH r' t'); [| cbn [length] in Hlen; lia | assumption | exact Er].
        rewrite percentEncode_safe; [reflexivity|].
        unfold isHighSurrogate in Ehigh. unfold isLowSurrogate in Elow.
        apply andb_true_iff in Ehigh. apply andb_true_iff in Elow.
        destruct Ehigh as [_ Hc2]. destruct Elow as [_ Hd2].
        apply N.leb_le in Hc2. apply N.leb_le in Hd2. lia.
      * destruct (encodeURIComponent r) as [t'|e] eqn:Er; inversion Henc; subst.
        rewrite forallb_app, (IH r t'); [| lia | exact Hr | exact Er].
        rewrite percentEncode_safe; [reflexivity | lia].
Qed.

Lemma ownProperty_Some_In (obj : list (jsstring * SubgraphEntry))
    (key : jsstring) (v : SubgraphEntry) :
  ownProperty obj key = Some v -> In key (map fst obj).
Proof.
  induction obj as [|[k w] rest IH]; cbn [ownProperty map fst In]; [discriminate|].
  destruct (streq k key) eqn:E.
  - intros _. left. now apply streq_eq.
  - intros H. right. exact (IH H).
Qed.

Lemma prepareUrl_Return_registry (chainId apiKey u : jsstring) :
  prepareUrl chainId apiKey = Return u -> In chainId (map fst SUBGRAPH_URLS).
Proof.
  intros Hrun. destruct (ownProperty SUBGRAPH_URLS chainId) as [v|] eqn:E.
  - exact (ownProperty_Some_In _ _ _ E).
  - apply ownProperty_None in E.
    rewrite (prepareUrl_unsupported chainId apiKey (or_introl E)) in Hrun.
    discriminate.
Qed.

(** X11. Whenever URL resolution returns, for an API key of 16-bit code
    units, the URL is the gateway prefix, the encoded key and the subgraph
    path, and the encoded key is made of unreserved characters and percent
    signs only: no character of the key can add a path segment, a query or a
    fragment, and the placeholder's brackets are gone. *)
Theorem X11_resolved_url_is_escaped (chainId apiKey u : jsstring) :
  Forall (fun c => (c < 65536)%N) apiKey ->
  prepareUrl chainId apiKey = Return u ->
  exists key subgraphId,
    u = str "https://gateway.thegraph.com/api/" ++ key
        ++ str "/subgraphs/id/" ++ subgraphId
    /\ encodeURIComponent apiKey = Return key
    /\ Forall (fun c => isUriUnreserved c = true \/ c = 37%N) key
    /\ ~ In 91%N u /\ ~ In 93%N u.
Proof.
  intros Hwf Hrun.
  pose proof (prepareUrl_Return_registry _ _ _ Hrun) as Hin.
  destruct (prepareUrl_registry chainId apiKey Hin) as (sid & _ & Hsid & Heq).
  rewrite Heq in Hrun.
  destruct (encodeURIComponent apiKey) as [key|e] eqn:Ekey; [|discriminate].
  inversion Hrun; subst u. clear Hrun.
  pose proof (encodeURIComponent_safe (length apiKey) apiKey key
                (Nat.le_refl _) Hwf Ekey) as Hkey.
  exists key, sid. split; [reflexivity|]. split; [reflexivity|].
  assert (Hall : forallb (fun c => isUrlChar c || charIn c [58; 47]%N)
                   (str "https://gateway.thegraph.com/api/" ++ key
                    ++ str "/subgraphs/id/" ++ sid) = true).
  { rewrite !forallb_app. rewrite andb_true_iff. split; [reflexivity|].
    rewrite andb_true_iff. split.
    - rewrite forallb_forall in Hkey. apply forallb_forall. intros c Hc.
      now rewrite (Hkey c Hc).
    - rewrite andb_true_iff. split; [reflexivity|].
      rewrite forallb_forall in Hsid. apply forallb_forall. intros c Hc.
      now rewrite (Hsid c Hc). }
  rewrite forallb_forall in Hall. split; [|split].
  - apply Forall_forall. intros c Hc. rewrite forallb_forall in Hkey.
    specialize (Hkey c Hc). unfold isUrlChar in Hkey.
    apply orb_true_iff in Hkey. destruct Hkey as [H|H]; [left; exact H|].
    right. now apply N.eqb_eq.
  - intros H91. specialize (Hall _ H91). discriminate.
  - intros H93. specialize (Hall _ H93). discriminate.
Qed.

Lemma X11_witness :
  exists key subgraphId,
    sampleUrl = str "https://gateway.thegraph.com/api/" ++ key
                ++ str "/subgraphs/id/" ++ subgraphId
    /\ encodeURIComponent (str "key") = Return key
    /\ Forall (fun c => isUriUnreserved c = true \/ c = 37%N) key
    /\ ~ In 91%N sampleUrl /\ ~ In 93%N sampleUrl.
Proof.
  apply (X11_resolved_url_is_escaped (str "1") (str "key") sampleUrl).
  - repeat constructor.
  - reflexivity.
Defined.

(** ** The fetcher, case by case *)

Lemma pageOf_Some (result : FetchResult) (ps : list Pair) :
  pageOf result = Some ps <->
  exists response body d,
    result = Return response /\ ok response = true
    /\ json response = Return body /\ errors body = None
    /\ data body = Some d /\ pairs d = Some ps.
Proof.
  unfold pageOf. split.
  - destruct result as [response|e]; [|discriminate].
    destruct (ok response) eqn:Hok; [|discriminate].
    destruct (json response) as [body|e] eqn:Hjson; [|discriminate].
    destruct (errors body) eqn:Herr; [discriminate|].
    destruct (data body) as [d|] eqn:Hdata; [|discriminate].
    intros Hp. exists response, body, d. auto 10.
  - intros (response & body & d & -> & -> & -> & -> & -> & Hp). exact Hp.
Qed.

Lemma forEach_log_console (errs : list GraphQLErrorItem) :
  forall st,
    forEach errs
      (fun error => log (console_error (str "GraphQL error: " ++ message error))) st
    = (Return tt,
       {| calls := calls st;
          console := console st
                     ++ map (fun error =>
                               console_error (str "GraphQL error: " ++ message error))
                          errs |}).
Proof.
  induction errs as [|e errs IH]; intros st; cbn [forEach map].
  - unfold ret. rewrite app_nil_r. destruct st; reflexivity.
  - unfold bind, log at 1. rewrite IH. cbn [calls console].
    rewrite <- app_assoc. reflexivity.
Qed.

(** X12. [fetchData] returns a page exactly when the answer resolved, is
    [ok], parsed as JSON, has no [errors] field and has [data.pairs]; the
    page returned is that list. *)
Theorem X12_fetchData_returns_iff
    (network : Network) (subgraphUrl : jsstring) (ts : number) (st : State)
    (ps : list Pair) :
  fst (fetchData network subgraphUrl ts st) = Return ps
  <-> exists response body d,
        network (calls st)
          {| request_url := subgraphUrl; request_lastTimestamp := ts |}
        = Return response
        /\ ok response = true /\ json response = Return body
        /\ errors body = None /\ data body = Some d /\ pairs d = Some ps.
Proof.
  rewrite <- pageOf_Some. split.
  - apply fetchData_Return.
  - intros Hpage. rewrite (fetchData_page network subgraphUrl ts st ps Hpage).
    reflexivity.
Qed.

(** X13. Every call of [fetchData] makes exactly one [fetch] call, to the
    given URL and with the given cursor, whatever the answer is. *)
Theorem X13_fetchData_makes_one_call
    (network : Network) (subgraphUrl : jsstring) (ts : number) (st : State) :
  calls (snd (fetchData network subgraphUrl ts st))
  = calls st
    ++ [({| request_url := subgraphUrl; request_lastTimestamp := ts |},
         network (calls st)
           {| request_url := subgraphUrl; request_lastTimestamp := ts |})].
Proof. exact (fetchData_calls network subgraphUrl ts st). Qed.

(** X14. When the response is not [ok], [fetchData] throws an error whose
    message is "HTTP error: " and the status in decimal; the body is not
    read and nothing is written to the console. *)
Theorem X14_fetchData_http_failure
    (network : Network) (subgraphUrl : jsstring) (ts : number) (st : State)
    (response : Response) :
  network (calls st) {| request_url := subgraphUrl; request_lastTimestamp := ts |}
  = Return response ->
  ok response = false ->
  fetchData network subgraphUrl ts st
  = (Throw (newError (str "HTTP error: " ++ numberToString (Int (status response)))),
     {| calls := calls st
                 ++ [({| request_url := subgraphUrl; request_lastTimestamp := ts |},
                      Return response)];
        console := console st |}).
Proof.
  intros Hnet Hok. unfold fetchData, bind, fetch, throw.
  rewrite Hnet, Hok. reflexivity.
Qed.

Lemma X14_witness :
  fetchData (mockFetch [Return serverError]) sampleUrl (Int 0) initialState
  = (Throw (newError (str "HTTP error: " ++ numberToString (Int (status serverError)))),
     {| calls := calls initialState
                 ++ [({| request_url := sampleUrl; request_lastTimestamp := Int 0 |},
                      Return serverError)];
        console := console initialState |}).
Proof.
  apply (X14_fetchData_http_failure (mockFetch [Return serverError]) sampleUrl
           (Int 0) initialState serverError); reflexivity.
Defined.

(** X15. When the parsed body has an [errors] list, [fetchData] writes one
    console line per error, "GraphQL error: " and the message, in the order
    of the list, after what the console already holds, and then throws. *)
Theorem X15_fetchData_logs_every_error
    (network : Network) (subgraphUrl : jsstring) (ts : number) (st : State)
    (response : Response) (body : GraphQLResponse) (errs : list GraphQLErrorItem) :
  network (calls st) {| request_url := subgraphUrl; request_lastTimestamp := ts |}
  = Return response ->
  ok response = true ->
  json response = Return body ->
  errors body = Some errs ->
  console (snd (fetchData network subgraphUrl ts st))
  = console st
    ++ map (fun error => console_error (str "GraphQL error: " ++ message error)) errs.
Proof.
  intros Hnet Hok Hjson Herr. unfold fetchData, bind, fetch, liftCompletion, throw.
  rewrite Hnet, Hok. cbn [negb]. rewrite Hjson, Herr.
  rewrite forEach_log_console. reflexivity.
Qed.

Lemma X15_witness :
  console
    (snd (fetchData
            (mockFetch
               [Return {| ok := true; status := 200;
                          json := Return
                                    {| data := None;
                                       errors := Some [ {| message := str "bad field" |};
                                                        {| message := str "timeout" |} ] |} |}])
            sampleUrl (Int 0) initialState))
  = console initialState
    ++ map (fun error => console_error (str "GraphQL error: " ++ message error))
         [ {| message := str "bad field" |}; {| message := str "timeout" |} ].
Proof.
  apply (X15_fetchData_logs_every_error _ sampleUrl (Int 0) initialState
           {| ok := true; status := 200;
              json := Return
                        {| data := None;
                           errors := Some [ {| message := str "bad field" |};
                                            {| message := str "timeout" |} ] |} |}
           {| data := None;
              errors := Some [ {| message := str "bad field" |};
                               {| message := str "timeout" |} ] |});
    reflexivity.
Defined.

(** X16. For an [ok] response whose body has no [errors] field: a missing
    [data], or a [data] without [pairs], makes [fetchData] throw "No pairs
    data found.", while an empty [pairs] list is returned as an empty
    page. *)
Theorem X16_missing_data_is_not_an_empty_page
    (network : Network) (subgraphUrl : jsstring) (ts : number) (st : State)
    (response : Response) (body : GraphQLResponse) :
  network (calls st) {| request_url := subgraphUrl; request_lastTimestamp := ts |}
  = Return response ->
  ok response = true ->
  json response = Return body ->
  errors body = None ->
  (data body = None \/ data body = Some {| pairs := None |} ->
   fst (fetchData network subgraphUrl ts st)
   = Throw (newError (str "No pairs data found.")))
  /\ (data body = Some {| pairs := Some [] |} ->
      fst (fetchData network subgraphUrl ts st) = Return []).
Proof.
  intros Hnet Hok Hjson Herr.
  unfold fetchData, bind, fetch, liftCompletion, throw, ret.
  rewrite Hnet, Hok. cbn [negb]. rewrite Hjson, Herr.
  split.
  - intros [-> | ->]; reflexivity.
  - intros ->. reflexivity.
Qed.

Lemma X16_witness :
  fst (fetchData
         (mockFetch [Return {| ok := true; status := 200;
                               json := Return {| data := None; errors := None |} |}])
         sampleUrl (Int 0) initialState)
  = Throw (newError (str "No pairs data found."))
  /\ fst (fetchData (mockFetch [pageResponse []]) sampleUrl (Int 0) initialState)
     = Return [].
Proof.
  split.
  - apply (X16_missing_data_is_not_an_empty_page _ sampleUrl (Int 0) initialState
             {| ok := true; status := 200;
                json := Return {| data := None; errors := None |} |}
             {| data := None; errors := None |}); try reflexivity.
    left. reflexivity.
  - apply (X16_missing_data_is_not_an_empty_page _ sampleUrl (Int 0) initialState
             {| ok := true; status := 200;
                json := Return {| data := Some {| pairs := Some [] |};
                                  errors := None |} |}
             {| data := Some {| pairs := Some [] |}; errors := None |});
      reflexivity.
Defined.

(** ** Contract addresses and plain API keys *)

(** X17. On one chain, pairs with different pool ids get different Contract
    Addresses. *)
Theorem X17_contract_address_identifies_pool (chainId : jsstring) (p q : Pair) :
  id p <> id q ->
  Contract_Address (tagOfPair chainId p) <> Contract_Address (tagOfPair chainId q).
Proof.
  intros Hne Heq. apply Hne. cbn [tagOfPair Contract_Address] in Heq.
  apply app_inv_head in Heq. apply app_inv_head in Heq.
  apply app_inv_head in Heq. exact Heq.
Qed.

Lemma X17_witness :
  Contract_Address (tagOfPair (str "1") goodPair)
  <> Contract_Address (tagOfPair (str "1") badPair).
Proof.
  apply (X17_contract_address_identifies_pool (str "1") goodPair badPair).
  vm_compute. discriminate.
Defined.

Lemma encodeURIComponent_unreserved (s : jsstring) :
  forallb isUriUnreserved s = true -> encodeURIComponent s = Return s.
Proof.
  induction s as [|c r IH]; [reflexivity|].
  cbn [forallb encodeURIComponent]. intros H. apply andb_true_iff in H.
  destruct H as [Hc Hr]. rewrite Hc, (IH Hr). reflexivity.
Qed.

(** X23. An API key made only of letters, digits and the marks
    [- _ . ! ~ * ' ( )] is put into the URL as it is, for each chain of the
    registry. *)
Theorem X23_plain_key_is_substituted_verbatim (chainId apiKey : jsstring) :
  In chainId (map fst SUBGRAPH_URLS) ->
  forallb isUriUnreserved apiKey = true ->
  exists subgraphId,
    prepareUrl chainId apiKey
    = Return (str "https://gateway.thegraph.com/api/" ++ apiKey
              ++ str "/subgraphs/id/" ++ subgraphId).
Proof.
  intros Hin Hplain.
  destruct (prepareUrl_registry chainId apiKey Hin) as (sid & _ & _ & Hrun).
  exists sid. rewrite Hrun, (encodeURIComponent_unreserved apiKey Hplain).
  reflexivity.
Qed.

Lemma X23_witness :
  exists subgraphId,
    prepareUrl (str "42161") (str "0123456789abcdef")
    = Return (str "https://gateway.thegraph.com/api/" ++ str "0123456789abcdef"
              ++ str "/subgraphs/id/" ++ subgraphId).
Proof.
  apply (X23_plain_key_is_substituted_verbatim (str "42161") (str "0123456789abcdef")).
  - right; right; right; right; left. reflexivity.
  - reflexivity.
Defined.

(** ** Whole runs of the pagination loop *)

Section RunFacts.

Variable network : Network.
Variables chainId url : jsstring.

Local Notation "'requestAt' ts" :=
  {| request_url := url; request_lastTimestamp := ts |}
  (at level 10, ts at level 9, only parsing).

Lemma fetchedPairs_cons (c : FetchCall) (rest : list FetchCall) (ps : list Pair) :
  pageOf (snd c) = Some ps ->
  fetchedPairs (c :: rest) = ps ++ fetchedPairs rest.
Proof. intros H. unfold fetchedPairs. cbn [flat_map]. now rewrite H. Qed.

Lemma whileLoop_returns (fuel : nat) :
  forall (ts : number) (acc : list ContractTag) (st st' : State)
         (tags : list ContractTag),
    whileLoop network fuel chainId url ts acc st = (Some (Return tags), st') ->
    exists full lastCall lastPage,
      calls st' = calls st ++ full ++ [lastCall]
      /\ Forall (fun c => exists ps, pageOf (snd c) = Some ps /\ length ps = 1000) full
      /\ pageOf (snd lastCall) = Some lastPage
      /\ length lastPage <> 1000
      /\ tags = acc ++ tagsOf chainId (fetchedPairs (full ++ [lastCall])).
Proof.
  induction fuel as [|fuel IH]; intros ts acc st st' tags Hrun; [discriminate|].
  destruct (pageOf (network (calls st) (requestAt ts))) as [ps|] eqn:Hpage.
  - destruct (Nat.eq_dec (length ps) 1000) as [Hlen|Hlen].
    + destruct (whileLoop_full_page network chainId url fuel ts acc st ps Hpage Hlen)
        as (p & st1 & _ & Hcalls & Hstep).
      rewrite Hstep in Hrun.
      destruct (IH _ _ _ _ _ Hrun) as (full & lastCall & lastPage & Hc & Hfull & Hl & Hn & Ht).
      exists ((requestAt ts, network (calls st) (requestAt ts)) :: full),
             lastCall, lastPage.
      split; [rewrite Hc, Hcalls, <- app_assoc; reflexivity|].
      split; [constructor; [exists ps; auto | exact Hfull]|].
      split; [exact Hl|]. split; [exact Hn|].
      rewrite Ht. cbn [app]. rewrite (fetchedPairs_cons
                 (requestAt ts, network (calls st) (requestAt ts)) _ ps Hpage).
      rewrite tagsOf_app, app_assoc. reflexivity.
    + destruct (whileLoop_short_page network chainId url fuel ts acc st ps Hpage Hlen)
        as (st1 & Hcalls & Hstep).
      rewrite Hstep in Hrun. inversion Hrun; subst.
      exists [], (requestAt ts, network (calls st) (requestAt ts)), ps.
      split; [exact Hcalls|]. split; [constructor|].
      split; [exact Hpage|]. split; [exact Hlen|].
      cbn [app]. rewrite (fetchedPairs_cons
                 (requestAt ts, network (calls st) (requestAt ts)) _ ps Hpage).
      cbn. now rewrite app_nil_r.
  - destruct (fetchData_no_page network url ts st Hpage) as (e & Hthrow).
    destruct (whileLoop_fetch_throws network chainId url fuel ts acc st e Hthrow)
      as (st2 & _ & Hstep).
    rewrite Hstep in Hrun. discriminate.
Qed.

Lemma whileLoop_throws (fuel : nat) :
  forall (ts : number) (acc : list ContractTag) (st st' : State) (err : JsValue),
    whileLoop network fuel chainId url ts acc st = (Some (Throw err), st') ->
    exists full lastCall thrown,
      calls st' = calls st ++ full ++ [lastCall]
      /\ Forall (fun c => exists ps, pageOf (snd c) = Some ps /\ length ps = 1000) full
      /\ pageOf (snd lastCall) = None
      /\ err = rethrown thrown.
Proof.
  induction fuel as [|fuel IH]; intros ts acc st st' err Hrun; [discriminate|].
  destruct (pageOf (network (calls st) (requestAt ts))) as [ps|] eqn:Hpage.
  - destruct (Nat.eq_dec (length ps) 1000) as [Hlen|Hlen].
    + destruct (whileLoop_full_page network chainId url fuel ts acc st ps Hpage Hlen)
        as (p & st1 & _ & Hcalls & Hstep).
      rewrite Hstep in Hrun.
      destruct (IH _ _ _ _ _ Hrun) as (full & lastCall & thrown & Hc & Hfull & Hl & He).
      exists ((requestAt ts, network (calls st) (requestAt ts)) :: full),
             lastCall, thrown.
      split; [rewrite Hc, Hcalls, <- app_assoc; reflexivity|].
      split; [constructor; [exists ps; auto | exact Hfull]|].
      split; assumption.
    + destruct (whileLoop_short_page network chainId url fuel ts acc st ps Hpage Hlen)
        as (st1 & Hcalls & Hstep).
      rewrite Hstep in Hrun. discriminate.
  - destruct (fetchData_no_page network url ts st Hpage) as (e & Hthrow).
    destruct (whileLoop_fetch_throws network chainId url fuel ts acc st e Hthrow)
      as (st2 & Hcalls & Hstep).
    rewrite Hstep in Hrun. inversion Hrun; subst.
    exists [], (requestAt ts, network (calls st) (requestAt ts)), e.
    split; [exact Hcalls|]. split; [constructor|]. split; [exact Hpage | reflexivity].
Qed.

Lemma whileLoop_requests (fuel : nat) :
  forall (ts : number) (acc : list ContractTag) (st : State),
  exists new,
    calls (snd (whileLoop network fuel chainId url ts acc st)) = calls st ++ new
    /\ Forall (fun c => request_url (fst c) = url) new
    /\ length new <= fuel.
Proof.
  induction fuel as [|fuel IH]; intros ts acc st.
  - exists []. cbn. rewrite app_nil_r. repeat split; [constructor | lia].
  - destruct (pageOf (network (calls st) (requestAt ts))) as [ps|] eqn:Hpage.
    + destruct (Nat.eq_dec (length ps) 1000) as [Hlen|Hlen].
      * destruct (whileLoop_full_page network chainId url fuel ts acc st ps Hpage Hlen)
          as (p & st1 & _ & Hcalls & ->).
        destruct (IH (nextCursor p) (acc ++ tagsOf chainId ps) st1)
          as (new & Hnew & Hurl & Hcount).
        exists ((requestAt ts, network (calls st) (requestAt ts)) :: new).
        split; [rewrite Hnew, Hcalls, <- app_assoc; reflexivity|].
        split; [constructor; [reflexivity | exact Hurl] | cbn [length]; lia].
      * destruct (whileLoop_short_page network chainId url fuel ts acc st ps Hpage Hlen)
          as (st1 & Hcalls & ->).
        exists [(requestAt ts, network (calls st) (requestAt ts))].
        split; [exact Hcalls|].
        split; [repeat constructor | cbn [length]; lia].
    + destruct (fetchData_no_page network url ts st Hpage) as (e & Hthrow).
      destruct (whileLoop_fetch_throws network chainId url fuel ts acc st e Hthrow)
        as (st2 & Hcalls & ->).
      exists [(requestAt ts, network (calls st) (requestAt ts))].
      split; [exact Hcalls|].
      split; [repeat constructor | cbn [length]; lia].
Qed.

Lemma whileLoop_never_ends (fuel : nat) :
  (forall history req,
      exists ps, pageOf (network history req) = Some ps /\ length ps = 1000) ->
  forall (ts : number) (acc : list ContractTag) (st : State),
    fst (whileLoop network fuel chainId url ts acc st) = None
    /\ length (calls (snd (whileLoop network fuel chainId url ts acc st)))
       = length (calls st) + fuel.
Proof.
  intros Hfull. induction fuel as [|fuel IH]; intros ts acc st.
  - cbn. split; [reflexivity | lia].
  - destruct (Hfull (calls st) (requestAt ts)) as (ps & Hpage & Hlen).
    destruct (whileLoop_full_page network chainId url fuel ts acc st ps Hpage Hlen)
      as (p & st1 & _ & Hcalls & ->).
    destruct (IH (nextCursor p) (acc ++ tagsOf chainId ps) st1) as [Hnone Hcount].
    split; [exact Hnone|].
    rewrite Hcount, Hcalls, length_app. cbn [length]. lia.
Qed.

Lemma catchBlock_console (A : Type) (e : JsValue) (st : State) :
  console (snd (@catchBlock A e st))
  = console st
    ++ [console_error (if isError e
                       then str "An error occurred: " ++ messageOf e
                       else str "An unknown error occurred.")].
Proof.
  unfold catchBlock, bind, log, throw. destruct (isError e); reflexivity.
Qed.

End RunFacts.

(** X18. Whenever [returnTags] returns tags, the run made one or more fetch
    calls, every call but the last came back with a page of exactly 1000
    pairs, the last came back with a page of another size, and the tags
    returned are the tags of the valid pairs among all the raw pairs fetched,
    in fetch order. *)
Theorem X18_returned_tags_cover_every_page
    (network : Network) (fuel : nat) (chainId apiKey : jsstring)
    (st st' : State) (tags : list ContractTag) :
  returnTags network fuel chainId apiKey st = (Some (Return tags), st') ->
  exists full lastCall lastPage,
    calls st' = calls st ++ full ++ [lastCall]
    /\ Forall (fun c => exists ps, pageOf (snd c) = Some ps /\ length ps = 1000) full
    /\ pageOf (snd lastCall) = Some lastPage
    /\ length lastPage <> 1000
    /\ tags = tagsOf chainId (fetchedPairs (full ++ [lastCall])).
Proof.
  unfold returnTags. destruct (prepareUrl chainId apiKey) as [url|e]; [|discriminate].
  intros Hrun.
  destruct (whileLoop_returns network chainId url fuel (Int 0) [] st st' tags Hrun)
    as (full & lastCall & lastPage & H).
  exists full, lastCall, lastPage. exact H.
Qed.

Lemma X18_witness :
  exists full lastCall lastPage,
    calls (snd (returnTags (mockFetch [pageResponse [goodPair; badPair]]) 1
                  (str "1") (str "key") initialState))
    = calls initialState ++ full ++ [lastCall]
    /\ Forall (fun c => exists ps, pageOf (snd c) = Some ps /\ length ps = 1000) full
    /\ pageOf (snd lastCall) = Some lastPage
    /\ length lastPage <> 1000
    /\ tagsOf (str "1") [goodPair; badPair]
       = tagsOf (str "1") (fetchedPairs (full ++ [lastCall])).
Proof.
  apply (X18_returned_tags_cover_every_page
           (mockFetch [pageResponse [goodPair; badPair]]) 1 (str "1") (str "key")
           initialState).
  vm_compute. reflexivity.
Defined.

(** X19. Whenever [returnTags] throws although the URL was resolved, every
    call of the run but the last came back with a page of exactly 1000
    pairs, the last call gave no page, and the error thrown is the one the
    [catch] block builds. *)
Theorem X19_thrown_run_failed_on_last_call
    (network : Network) (fuel : nat) (chainId apiKey url : jsstring)
    (st st' : State) (err : JsValue) :
  prepareUrl chainId apiKey = Return url ->
  returnTags network fuel chainId apiKey st = (Some (Throw err), st') ->
  exists full lastCall thrown,
    calls st' = calls st ++ full ++ [lastCall]
    /\ Forall (fun c => exists ps, pageOf (snd c) = Some ps /\ length ps = 1000) full
    /\ pageOf (snd lastCall) = None
    /\ err = rethrown thrown.
Proof.
  intros Hurl. unfold returnTags. rewrite Hurl. intros Hrun.
  exact (whileLoop_throws network chainId url fuel (Int 0) [] st st' err Hrun).
Qed.

Lemma X19_witness :
  exists full lastCall thrown,
    calls (snd (returnTags (mockFetch [Return serverError]) 1
                  (str "1") (str "key") initialState))
    = calls initialState ++ full ++ [lastCall]
    /\ Forall (fun c => exists ps, pageOf (snd c) = Some ps /\ length ps = 1000) full
    /\ pageOf (snd lastCall) = None
    /\ newError (str "Failed fetching data: Error: HTTP error: 500") = rethrown thrown.
Proof.
  apply (X19_thrown_run_failed_on_last_call
           (mockFetch [Return serverError]) 1 (str "1") (str "key") sampleUrl
           initialState).
  - reflexivity.
  - vm_compute. reflexivity.
Defined.

(** X20. When the [try] block throws, the [catch] block writes one console
    line before it rethrows: "An error occurred: " and the message of the
    caught value when it is an Error instance or another object with a
    string message, and "An unknown error occurred." when it is an object
    without a string message or a primitive. *)
Theorem X20_catch_logs_before_rethrow
    (network : Network) (fuel : nat) (chainId url : jsstring) (ts : number)
    (acc : list ContractTag) (st : State) (e : JsValue) :
  fst (tryBlock network chainId url ts acc st) = Throw e ->
  console (snd (whileLoop network (S fuel) chainId url ts acc st))
  = console (snd (tryBlock network chainId url ts acc st))
    ++ [console_error
          match e with
          | ErrorObject _ msg => str "An error occurred: " ++ msg
          | OtherObject (Some msg) _ => str "An error occurred: " ++ msg
          | OtherObject None _ => str "An unknown error occurred."
          | Primitive _ => str "An unknown error occurred."
          end].
Proof.
  intros Hthrow. cbn [whileLoop]. unfold tryCatch.
  destruct (tryBlock network chainId url ts acc st) as [c st1].
  cbn [fst snd] in *. subst c.
  pose proof (catchBlock_console LoopVars e st1) as Hlog.
  destruct (catchBlock_rethrown LoopVars e st1) as (st2 & Hcatch & _).
  rewrite Hcatch in *. cbn [snd] in *. rewrite Hlog.
  destruct e as [name msg | [m|] repr | repr]; reflexivity.
Qed.

Lemma X20_witness :
  console (snd (whileLoop (mockFetch [Return serverError]) 1 (str "1") sampleUrl
                  (Int 0) [] initialState))
  = console (snd (tryBlock (mockFetch [Return serverError]) (str "1") sampleUrl
                    (Int 0) [] initialState))
    ++ [console_error (str "An error occurred: HTTP error: 500")]
  /\ console (snd (whileLoop (mockFetch [Throw (Primitive (str "socket hang up"))]) 1
                     (str "1") sampleUrl (Int 0) [] initialState))
     = console (snd (tryBlock (mockFetch [Throw (Primitive (str "socket hang up"))])
                       (str "1") sampleUrl (Int 0) [] initialState))
       ++ [console_error (str "An unknown error occurred.")].
Proof.
  split.
  - apply (X20_catch_logs_before_rethrow (mockFetch [Return serverError]) 0 (str "1")
             sampleUrl (Int 0) [] initialState (newError (str "HTTP error: 500"))).
    reflexivity.
  - apply (X20_catch_logs_before_rethrow
             (mockFetch [Throw (Primitive (str "socket hang up"))]) 0 (str "1")
             sampleUrl (Int 0) [] initialState (Primitive (str "socket hang up"))).
    reflexivity.
Defined.

(** X21. A run of [returnTags] only appends to the trace of fetch calls;
    every request it makes goes to the URL resolved at the start, and its
    first request carries cursor 0. *)
Theorem X21_requests_of_a_run
    (network : Network) (fuel : nat) (chainId apiKey url : jsstring) (st : State) :
  prepareUrl chainId apiKey = Return url ->
  exists new,
    calls (snd (returnTags network fuel chainId apiKey st)) = calls st ++ new
    /\ Forall (fun c => request_url (fst c) = url) new
    /\ (forall c rest, new = c :: rest -> request_lastTimestamp (fst c) = Int 0).
Proof.
  intros Hurl. unfold returnTags. rewrite Hurl.
  destruct (whileLoop_requests network chainId url fuel (Int 0) [] st)
    as (new & Hnew & Hsame & _).
  destruct (whileLoop_trace network chainId url fuel (Int 0) [] st)
    as (new' & Hnew' & Hchain & _).
  rewrite Hnew in Hnew'. apply app_inv_head in Hnew'. subst new'.
  exists new. split; [exact Hnew|]. split; [exact Hsame|].
  intros [req res] rest ->. cbn [chained] in Hchain. destruct Hchain as [Hts _].
  exact Hts.
Qed.

Lemma X21_witness :
  exists new,
    calls (snd (returnTags (mockFetch [pageResponse fullPage; pageResponse lastPage])
                  2 (str "1") (str "key") initialState))
    = calls initialState ++ new
    /\ Forall (fun c => request_url (fst c) = sampleUrl) new
    /\ (forall c rest, new = c :: rest -> request_lastTimestamp (fst c) = Int 0).
Proof.
  apply (X21_requests_of_a_run
           (mockFetch [pageResponse fullPage; pageResponse lastPage])
           2 (str "1") (str "key") sampleUrl initialState).
  reflexivity.
Defined.

(** X22. The loop has no page limit: against an endpoint that answers every
    request with a page of exactly 1000 pairs, [returnTags] is still running
    after any number of iterations, having made one fetch call in each. *)
Theorem X22_full_pages_never_end
    (network : Network) (chainId apiKey url : jsstring) (st : State) :
  prepareUrl chainId apiKey = Return url ->
  (forall history req,
      exists ps, pageOf (network history req) = Some ps /\ length ps = 1000) ->
  forall fuel,
    fst (returnTags network fuel chainId apiKey st) = None
    /\ length (calls (snd (returnTags network fuel chainId apiKey st)))
       = length (calls st) + fuel.
Proof.
  intros Hurl Hfull fuel. unfold returnTags. rewrite Hurl.
  exact (whileLoop_never_ends network chainId url fuel Hfull (Int 0) [] st).
Qed.

Lemma X22_witness :
  fst (returnTags alwaysFull 3 (str "1") (str "key") initialState) = None
  /\ length (calls (snd (returnTags alwaysFull 3 (str "1") (str "key") initialState)))
     = length (calls initialState) + 3.
Proof.
  apply (X22_full_pages_never_end alwaysFull (str "1") (str "key") sampleUrl
           initialState).
  - reflexivity.
  - intros history req. exists fullPage. split; reflexivity.
Defined.
